(** * PR Reviewer Assignment Service: model and verified properties

    A shallow embedding of [app/db.py] (the pydantic data model) and
    [app/main.py] (the in-memory store and the request handlers).

    - Python's insertion-ordered [dict] is an association list with the
      operations of [PyDict]: a key that is set again keeps its position,
      a new key goes to the end, iteration follows insertion order.
    - [teams_exist] is a [set] of names used only through [in] and [add]:
      a [gset string].
    - [random.shuffle] and [random.choice] follow CPython's [random.py] over
      an explicit source of raw draws ([PyRandom]).
    - [datetime.utcnow()] is an input of the handler (the clock reading).
    - A handler returns its response together with the store it leaves. *)

From stdpp Require Import gmap strings list.

Open Scope string_scope.
Open Scope list_scope.

(** ** Insertion-ordered dictionaries *)

Module PyDict.
Section dict.
Context {V : Type}.

(** [d.get(k)] *)
Fixpoint get (k : string) (d : list (string * V)) : option V :=
  match d with
  | [] => None
  | (k', v) :: d' => if decide (k = k') then Some v else get k d'
  end.

(** [d[k] = v] *)
Fixpoint set (k : string) (v : V) (d : list (string * V)) : list (string * V) :=
  match d with
  | [] => [(k, v)]
  | (k', v') :: d' =>
      if decide (k = k') then (k, v) :: d' else (k', v') :: set k v d'
  end.

(** [k in d] *)
Definition contains (k : string) (d : list (string * V)) : bool :=
  match get k d with Some _ => true | None => false end.

(** [d.keys()] and [d.values()], in iteration order *)
Definition keys (d : list (string * V)) : list string := d.*1.
Definition values (d : list (string * V)) : list V := d.*2.
End dict.
End PyDict.

(** ** The random module *)

Module PyRandom.

(** The generator state: the raw draws it will still hand out. *)
Definition Rng := list nat.

(** [_randbelow(n)]: a number below [n], and the generator afterwards. *)
Definition randbelow (n : nat) (g : Rng) : nat * Rng :=
  match g with
  | [] => (0, [])
  | x :: g' => (x `mod` n, g')
  end.

(** [x[i], x[j] = x[j], x[i]] *)
Definition swap {A} (x : list A) (i j : nat) : list A :=
  match x !! i, x !! j with
  | Some xi, Some xj => <[j:=xi]> (<[i:=xj]> x)
  | _, _ => x
  end.

(** The loop of [shuffle]:
    [for i in reversed(range(1, len(x))): j = randbelow(i + 1); swap] *)
Fixpoint shuffle_from {A} (i : nat) (x : list A) (g : Rng) : list A * Rng :=
  match i with
  | 0 => (x, g)
  | S i' =>
      let '(j, g') := randbelow (i + 1) g in
      shuffle_from i' (swap x i j) g'
  end.

Definition shuffle {A} (x : list A) (g : Rng) : list A * Rng :=
  shuffle_from (length x - 1) x g.

(** [choice(seq)] is [seq[randbelow(len(seq))]]; [None] stands for the
    [IndexError] of an empty sequence. *)
Definition choice {A} (seq : list A) (g : Rng) : option A * Rng :=
  let '(i, g') := randbelow (length seq) g in (seq !! i, g').

End PyRandom.

(** ** app/db.py *)

Inductive ErrorCode :=
  TEAM_EXISTS | PR_EXISTS | PR_MERGED | NOT_ASSIGNED | NO_CANDIDATE | NOT_FOUND.

Definition datetime := Z.

Module TeamMember.
Record t := mk { user_id : string; username : string; is_active : bool }.
End TeamMember.

Module Team.
Record t := mk { team_name : string; members : list TeamMember.t }.
End Team.

Module User.
Record t := mk
  { user_id : string; username : string; team_name : string; is_active : bool }.

(** Assignments to one attribute of a stored user. *)
Definition set_username (x : string) (u : t) : t :=
  mk (user_id u) x (team_name u) (is_active u).
Definition set_team_name (x : string) (u : t) : t :=
  mk (user_id u) (username u) x (is_active u).
Definition set_is_active (x : bool) (u : t) : t :=
  mk (user_id u) (username u) (team_name u) x.
End User.

Inductive PRStatus := OPEN | MERGED.

Module PullRequest.
Record t := mk
  { pull_request_id : string;
    pull_request_name : string;
    author_id : string;
    status : PRStatus;
    assigned_reviewers : list string;
    createdAt : option datetime;
    mergedAt : option datetime }.

(** Assignments to one attribute of a stored pull request. *)
Definition set_status (x : PRStatus) (pr : t) : t :=
  mk (pull_request_id pr) (pull_request_name pr) (author_id pr) x
     (assigned_reviewers pr) (createdAt pr) (mergedAt pr).
Definition set_mergedAt (x : option datetime) (pr : t) : t :=
  mk (pull_request_id pr) (pull_request_name pr) (author_id pr) (status pr)
     (assigned_reviewers pr) (createdAt pr) x.
Definition set_assigned_reviewers (x : list string) (pr : t) : t :=
  mk (pull_request_id pr) (pull_request_name pr) (author_id pr) (status pr)
     x (createdAt pr) (mergedAt pr).
End PullRequest.

Module PullRequestShort.
Record t := mk
  { pull_request_id : string;
    pull_request_name : string;
    author_id : string;
    status : PRStatus }.
End PullRequestShort.

Module SetIsActiveRequest.
Record t := mk { user_id : string; is_active : bool }.
End SetIsActiveRequest.

Module CreatePullRequestRequest.
Record t := mk
  { pull_request_id : string; pull_request_name : string; author_id : string }.
End CreatePullRequestRequest.

Module MergePullRequestRequest.
Record t := mk { pull_request_id : string }.
End MergePullRequestRequest.

Module ReassignReviewerRequest.
Record t := mk { pull_request_id : string; old_user_id : string }.
End ReassignReviewerRequest.

(** What a handler returns: one of the response models, the [Team] that
    [get_team] returns as it is, or the [JSONResponse] of [error_response].
    [Raised] is an exception that leaves the handler. *)
Inductive Response :=
| JSONResponse (status_code : nat) (code : ErrorCode) (message : string)
| TeamResponse (team : Team.t)
| TeamBody (team : Team.t)
| UserResponse (user : User.t)
| PullRequestResponse (pr : PullRequest.t)
| ReassignReviewerResponse (pr : PullRequest.t) (replaced_by : string)
| UserReviewsResponse (user_id : string) (pull_requests : list PullRequestShort.t)
| Raised (exception : string).

#[global] Instance ErrorCode_eq_dec : EqDecision ErrorCode.
Proof. solve_decision. Defined.
#[global] Instance PRStatus_eq_dec : EqDecision PRStatus.
Proof. solve_decision. Defined.

(** ** app/main.py *)

(** The in-memory "DB": the three module-level variables. *)
Record Store := mkStore
  { users_by_id : list (string * User.t);
    prs_by_id : list (string * PullRequest.t);
    teams_exist : gset string }.

Definition initial : Store :=
  {| users_by_id := []; prs_by_id := []; teams_exist := ∅ |}.

Definition error_response (status : nat) (code : ErrorCode) (msg : string) : Response :=
  JSONResponse status code msg.

(** The body of the loop over [team.members] in [add_team]. *)
Definition add_member (team_name : string)
    (users : list (string * User.t)) (member : TeamMember.t) : list (string * User.t) :=
  let u_id := TeamMember.user_id member in
  match PyDict.get u_id users with
  | Some existing =>
      let existing := User.set_username (TeamMember.username member) existing in
      let existing := User.set_team_name team_name existing in
      let existing := User.set_is_active (TeamMember.is_active member) existing in
      PyDict.set u_id existing users
  | None =>
      PyDict.set u_id
        {| User.user_id := TeamMember.user_id member;
           User.username := TeamMember.username member;
           User.team_name := team_name;
           User.is_active := TeamMember.is_active member |} users
  end.

Definition add_team (team : Team.t) (s : Store) : Response * Store :=
  if bool_decide (Team.team_name team ∈ teams_exist s) then
    (error_response 400 TEAM_EXISTS "team_name already exists", s)
  else
    let teams := {[Team.team_name team]} ∪ teams_exist s in
    let users := foldl (add_member (Team.team_name team)) (users_by_id s) (Team.members team) in
    (TeamResponse team,
     {| users_by_id := users; prs_by_id := prs_by_id s; teams_exist := teams |}).

Definition get_team (team_name : string) (s : Store) : Response * Store :=
  if negb (bool_decide (team_name ∈ teams_exist s)) then
    (error_response 404 NOT_FOUND "team not found", s)
  else
    let members :=
      foldl (fun members user =>
               if bool_decide (User.team_name user = team_name) then
                 members ++ [ {| TeamMember.user_id := User.user_id user;
                                 TeamMember.username := User.username user;
                                 TeamMember.is_active := User.is_active user |} ]
               else members)
            [] (PyDict.values (users_by_id s)) in
    (TeamBody {| Team.team_name := team_name; Team.members := members |}, s).

Definition set_is_active (payload : SetIsActiveRequest.t) (s : Store) : Response * Store :=
  let user_id := SetIsActiveRequest.user_id payload in
  match PyDict.get user_id (users_by_id s) with
  | None => (error_response 404 NOT_FOUND "user not found", s)
  | Some user =>
      let user := User.set_is_active (SetIsActiveRequest.is_active payload) user in
      (UserResponse user,
       {| users_by_id := PyDict.set user_id user (users_by_id s);
          prs_by_id := prs_by_id s;
          teams_exist := teams_exist s |})
  end.

(** The reviewer candidates of [create_pull_request], before the shuffle. *)
Definition create_candidates (author : User.t) (users : list (string * User.t)) : list string :=
  foldl (fun candidates u =>
           if bool_decide (User.team_name u = User.team_name author)
              && negb (bool_decide (User.user_id u = User.user_id author))
              && User.is_active u
           then candidates ++ [User.user_id u]
           else candidates)
        [] (PyDict.values users).

Definition create_pull_request (g : PyRandom.Rng) (utcnow : datetime)
    (payload : CreatePullRequestRequest.t) (s : Store) : Response * Store :=
  let pr_id := CreatePullRequestRequest.pull_request_id payload in
  if PyDict.contains pr_id (prs_by_id s) then
    (error_response 409 PR_EXISTS "PR id already exists", s)
  else
    match PyDict.get (CreatePullRequestRequest.author_id payload) (users_by_id s) with
    | None => (error_response 404 NOT_FOUND "author not found", s)
    | Some author =>
        if negb (bool_decide (User.team_name author ∈ teams_exist s)) then
          (error_response 404 NOT_FOUND "author team not found", s)
        else
          let candidates := create_candidates author (users_by_id s) in
          let candidates := (PyRandom.shuffle candidates g).1 in
          let assigned_reviewers := take 2 candidates in
          let pr :=
            {| PullRequest.pull_request_id := pr_id;
               PullRequest.pull_request_name :=
                 CreatePullRequestRequest.pull_request_name payload;
               PullRequest.author_id := User.user_id author;
               PullRequest.status := OPEN;
               PullRequest.assigned_reviewers := assigned_reviewers;
               PullRequest.createdAt := Some utcnow;
               PullRequest.mergedAt := None |} in
          (PullRequestResponse pr,
           {| users_by_id := users_by_id s;
              prs_by_id := PyDict.set pr_id pr (prs_by_id s);
              teams_exist := teams_exist s |})
    end.

Definition merge_pull_request (utcnow : datetime)
    (payload : MergePullRequestRequest.t) (s : Store) : Response * Store :=
  let pr_id := MergePullRequestRequest.pull_request_id payload in
  match PyDict.get pr_id (prs_by_id s) with
  | None => (error_response 404 NOT_FOUND "PR not found", s)
  | Some pr =>
      if bool_decide (PullRequest.status pr = MERGED) then
        (PullRequestResponse pr, s)
      else
        let pr := PullRequest.set_status MERGED pr in
        let pr := PullRequest.set_mergedAt (Some utcnow) pr in
        (PullRequestResponse pr,
         {| users_by_id := users_by_id s;
            prs_by_id := PyDict.set pr_id pr (prs_by_id s);
            teams_exist := teams_exist s |})
  end.

(** The replacement candidates of [reassign_reviewer]. *)
Definition reassign_candidates (old_user : User.t) (old_user_id : string)
    (pr : PullRequest.t) (users : list (string * User.t)) : list string :=
  foldl (fun candidates u =>
           if bool_decide (User.team_name u = User.team_name old_user)
              && negb (bool_decide (User.user_id u = old_user_id))
              && User.is_active u
              && negb (bool_decide (User.user_id u ∈ PullRequest.assigned_reviewers pr))
           then candidates ++ [User.user_id u]
           else candidates)
        [] (PyDict.values users).

(** [[(new_user_id if r == old_user_id else r) for r in reviewers]] *)
Definition replace_reviewer (old_user_id new_user_id : string)
    (reviewers : list string) : list string :=
  (fun r => if bool_decide (r = old_user_id) then new_user_id else r) <$> reviewers.

Definition reassign_reviewer (g : PyRandom.Rng)
    (payload : ReassignReviewerRequest.t) (s : Store) : Response * Store :=
  let pr_id := ReassignReviewerRequest.pull_request_id payload in
  let old_user_id := ReassignReviewerRequest.old_user_id payload in
  match PyDict.get pr_id (prs_by_id s) with
  | None => (error_response 404 NOT_FOUND "PR not found", s)
  | Some pr =>
      match PyDict.get old_user_id (users_by_id s) with
      | None => (error_response 404 NOT_FOUND "user not found", s)
      | Some old_user =>
          if bool_decide (PullRequest.status pr = MERGED) then
            (error_response 409 PR_MERGED "cannot reassign on merged PR", s)
          else if negb (bool_decide (old_user_id ∈ PullRequest.assigned_reviewers pr)) then
            (error_response 409 NOT_ASSIGNED "reviewer is not assigned to this PR", s)
          else
            let candidates := reassign_candidates old_user old_user_id pr (users_by_id s) in
            match candidates with
            | [] =>
                (error_response 409 NO_CANDIDATE
                   "no active replacement candidate in team", s)
            | _ :: _ =>
                match (PyRandom.choice candidates g).1 with
                | None => (Raised "IndexError", s)
                | Some new_user_id =>
                    let new_reviewers :=
                      replace_reviewer old_user_id new_user_id
                        (PullRequest.assigned_reviewers pr) in
                    let pr := PullRequest.set_assigned_reviewers new_reviewers pr in
                    (ReassignReviewerResponse pr new_user_id,
                     {| users_by_id := users_by_id s;
                        prs_by_id := PyDict.set pr_id pr (prs_by_id s);
                        teams_exist := teams_exist s |})
                end
            end
      end
  end.

(** The projection of a pull request that [get_user_reviews] builds. *)
Definition short (pr : PullRequest.t) : PullRequestShort.t :=
  {| PullRequestShort.pull_request_id := PullRequest.pull_request_id pr;
     PullRequestShort.pull_request_name := PullRequest.pull_request_name pr;
     PullRequestShort.author_id := PullRequest.author_id pr;
     PullRequestShort.status := PullRequest.status pr |}.

Definition get_user_reviews (user_id : string) (s : Store) : Response * Store :=
  if negb (PyDict.contains user_id (users_by_id s)) then
    (error_response 404 NOT_FOUND "user not found", s)
  else
    let pull_requests_short :=
      foldl (fun acc pr =>
               if bool_decide (user_id ∈ PullRequest.assigned_reviewers pr)
               then acc ++ [short pr]
               else acc)
            [] (PyDict.values (prs_by_id s)) in
    (UserReviewsResponse user_id pull_requests_short, s).

(** ** Requests and reachable stores *)

(** The routes of the application, each with its request data. *)
Inductive Request :=
| PostTeamAdd (team : Team.t)
| GetTeamGet (team_name : string)
| PostUsersSetIsActive (payload : SetIsActiveRequest.t)
| PostPullRequestCreate (payload : CreatePullRequestRequest.t)
| PostPullRequestMerge (payload : MergePullRequestRequest.t)
| PostPullRequestReassign (payload : ReassignReviewerRequest.t)
| GetUsersGetReview (user_id : string).

(** What a handler reads from outside the store while it runs. *)
Record Env := mkEnv { rng : PyRandom.Rng; utcnow : datetime }.

Definition handle (e : Env) (r : Request) (s : Store) : Response * Store :=
  match r with
  | PostTeamAdd team => add_team team s
  | GetTeamGet team_name => get_team team_name s
  | PostUsersSetIsActive payload => set_is_active payload s
  | PostPullRequestCreate payload => create_pull_request (rng e) (utcnow e) payload s
  | PostPullRequestMerge payload => merge_pull_request (utcnow e) payload s
  | PostPullRequestReassign payload => reassign_reviewer (rng e) payload s
  | GetUsersGetReview user_id => get_user_reviews user_id s
  end.

(** The stores the service can be in: the empty one at start-up, and the one
    left by any request served from a reachable store. *)
Inductive reachable : Store -> Prop :=
| reachable_initial : reachable initial
| reachable_handle e r s : reachable s -> reachable (handle e r s).2.

(** A response is an error when it is the [JSONResponse] of [error_response]
    or an escaped exception. *)
Definition is_error (r : Response) : bool :=
  match r with
  | JSONResponse _ _ _ | Raised _ => true
  | _ => false
  end.

Definition fails_with (r : Response) (c : ErrorCode) : Prop :=
  exists status msg, r = JSONResponse status c msg.

(** ** Properties of a store and of its records *)

(** The keys of a dict are distinct, and a user is stored under its own id. *)
Definition users_ok (users : list (string * User.t)) : Prop :=
  NoDup (PyDict.keys users) /\ Forall (fun kv => User.user_id kv.2 = kv.1) users.

(** The reviewers of a pull request: distinct, and at most two. *)
Definition reviewers_ok (pr : PullRequest.t) : Prop :=
  NoDup (PullRequest.assigned_reviewers pr)
  /\ length (PullRequest.assigned_reviewers pr) <= 2.

(** [mergedAt] is set exactly when the status is [MERGED]. *)
Definition merged_at_ok (pr : PullRequest.t) : Prop :=
  PullRequest.mergedAt pr <> None <-> PullRequest.status pr = MERGED.

(** The author of a pull request is not one of its reviewers. *)
Definition author_not_reviewer (pr : PullRequest.t) : Prop :=
  PullRequest.author_id pr ∉ PullRequest.assigned_reviewers pr.

Definition prs_ok (prs : list (string * PullRequest.t)) : Prop :=
  NoDup (PyDict.keys prs)
  /\ Forall (fun kv => PullRequest.pull_request_id kv.2 = kv.1 /\ reviewers_ok kv.2) prs.

Definition store_ok (s : Store) : Prop :=
  users_ok (users_by_id s) /\ prs_ok (prs_by_id s).

(** The eligible reviewers of a new pull request, in the words of the
    specification: the active users of the author's team, the author apart. *)
Definition eligible_teammate (author u : User.t) : Prop :=
  User.team_name u = User.team_name author
  /\ User.user_id u <> User.user_id author
  /\ User.is_active u = true.

(** The replacement candidates of a reassignment, in the words of the
    specification: the active users of the old reviewer's team, who are not
    the old reviewer and not already assigned. *)
Definition replacement_candidate (old_user : User.t) (old_user_id : string)
    (pr : PullRequest.t) (u : User.t) : Prop :=
  User.is_active u = true
  /\ User.team_name u = User.team_name old_user
  /\ User.user_id u <> old_user_id
  /\ User.user_id u ∉ PullRequest.assigned_reviewers pr.

#[global] Instance users_ok_dec users : Decision (users_ok users).
Proof. unfold users_ok. apply _. Defined.
#[global] Instance reviewers_ok_dec pr : Decision (reviewers_ok pr).
Proof. unfold reviewers_ok. apply _. Defined.
#[global] Instance merged_at_ok_dec pr : Decision (merged_at_ok pr).
Proof. unfold merged_at_ok. apply _. Defined.
#[global] Instance author_not_reviewer_dec pr : Decision (author_not_reviewer pr).
Proof. unfold author_not_reviewer. apply _. Defined.
#[global] Instance prs_ok_dec prs : Decision (prs_ok prs).
Proof. unfold prs_ok. apply _. Defined.
#[global] Instance store_ok_dec s : Decision (store_ok s).
Proof. unfold store_ok. apply _. Defined.
#[global] Instance eligible_teammate_dec author u : Decision (eligible_teammate author u).
Proof. unfold eligible_teammate. apply _. Defined.
#[global] Instance replacement_candidate_dec old_user old_user_id pr u :
  Decision (replacement_candidate old_user old_user_id pr u).
Proof. unfold replacement_candidate. apply _. Defined.

(** ** Two small scenarios *)

Module Scenario.

(** The example of the specification: team A with u1 and u2 active and u3
    inactive; u1 opens pr1. *)
Definition team_a : Team.t :=
  {| Team.team_name := "A";
     Team.members :=
       [ TeamMember.mk "u1" "Ann" true;
         TeamMember.mk "u2" "Bob" true;
         TeamMember.mk "u3" "Cid" false ] |}.

Definition env : Env := mkEnv [] 7%Z.

Definition create_pr1 : CreatePullRequestRequest.t :=
  CreatePullRequestRequest.mk "pr1" "x" "u1".
Definition merge_pr1 : MergePullRequestRequest.t :=
  MergePullRequestRequest.mk "pr1".
Definition reassign_pr1_u2 : ReassignReviewerRequest.t :=
  ReassignReviewerRequest.mk "pr1" "u2".

Definition s_team : Store := (handle env (PostTeamAdd team_a) initial).2.
Definition s_open : Store := (handle env (PostPullRequestCreate create_pr1) s_team).2.
Definition s_merged : Store :=
  (handle (mkEnv [] 9%Z) (PostPullRequestMerge merge_pr1) s_open).2.

(** A larger team: four active members; v1 opens pr2. *)
Definition team_b : Team.t :=
  {| Team.team_name := "B";
     Team.members :=
       [ TeamMember.mk "v1" "Dee" true;
         TeamMember.mk "v2" "Eve" true;
         TeamMember.mk "v3" "Fay" true;
         TeamMember.mk "v4" "Gus" true ] |}.

Definition create_pr2 : CreatePullRequestRequest.t :=
  CreatePullRequestRequest.mk "pr2" "y" "v1".
Definition reassign_pr2_v3 : ReassignReviewerRequest.t :=
  ReassignReviewerRequest.mk "pr2" "v3".

Definition s_team_b : Store := (handle env (PostTeamAdd team_b) s_merged).2.
Definition s_open_b : Store :=
  (handle env (PostPullRequestCreate create_pr2) s_team_b).2.

End Scenario.

(** ** Further notions for the handlers *)

(** The [User(...)] that [add_team] builds for a member of a team. *)
Definition user_of_member (team_name : string) (member : TeamMember.t) : User.t :=
  {| User.user_id := TeamMember.user_id member;
     User.username := TeamMember.username member;
     User.team_name := team_name;
     User.is_active := TeamMember.is_active member |}.

(** The [TeamMember(...)] that [get_team] builds for a stored user. *)
Definition member_of_user (user : User.t) : TeamMember.t :=
  {| TeamMember.user_id := User.user_id user;
     TeamMember.username := User.username user;
     TeamMember.is_active := User.is_active user |}.

(** Every stored user points at a registered team. *)
Definition teams_registered (s : Store) : Prop :=
  Forall (fun u => User.team_name u ∈ teams_exist s) (PyDict.values (users_by_id s)).

(** The author and the reviewers of every stored pull request are keys of
    [users_by_id]. *)
Definition refs_known (s : Store) : Prop :=
  Forall (fun pr =>
            is_Some (PyDict.get (PullRequest.author_id pr) (users_by_id s))
            /\ Forall (fun r => is_Some (PyDict.get r (users_by_id s)))
                 (PullRequest.assigned_reviewers pr))
         (PyDict.values (prs_by_id s)).

#[global] Instance teams_registered_dec s : Decision (teams_registered s).
Proof. unfold teams_registered. apply _. Defined.
#[global] Instance refs_known_dec s : Decision (refs_known s).
Proof. unfold refs_known. apply _. Defined.

(** The store after a sequence of requests, served one after the other. *)
Definition run (trace : list (Env * Request)) (s : Store) : Store :=
  foldl (fun s er => (handle er.1 er.2 s).2) s trace.

(** ** A third scenario: one user twice in a payload, under a new team *)

Module Scenario2.

(** u2, of team A, is listed twice in the payload of team C. *)
Definition team_c : Team.t :=
  {| Team.team_name := "C";
     Team.members :=
       [ TeamMember.mk "u2" "Bob" true;
         TeamMember.mk "w1" "Hal" true;
         TeamMember.mk "u2" "Rob" false ] |}.

Definition s_team_c : Store :=
  (handle Scenario.env (PostTeamAdd team_c) Scenario.s_open_b).2.

End Scenario2.

(** The tests of the two candidate loops, as functions of the user. *)
Definition create_test (author u : User.t) : bool :=
  bool_decide (User.team_name u = User.team_name author)
  && negb (bool_decide (User.user_id u = User.user_id author))
  && User.is_active u.

Definition reassign_test (old_user : User.t) (old_user_id : string)
    (pr : PullRequest.t) (u : User.t) : bool :=
  bool_decide (User.team_name u = User.team_name old_user)
  && negb (bool_decide (User.user_id u = old_user_id))
  && User.is_active u
  && negb (bool_decide (User.user_id u ∈ PullRequest.assigned_reviewers pr)).

(** * Proofs *)

(** ** Dictionaries *)

Module PyDictFacts.
Section facts.
Context {V : Type}.
Implicit Types (d : list (string * V)) (k : string) (v : V).

Lemma get_set_eq k v d : PyDict.get k (PyDict.set k v d) = Some v.
Proof.
  induction d as [|[k' v'] d IH]; simpl.
  - by rewrite decide_True.
  - destruct (decide (k = k')); simpl.
    + by rewrite decide_True.
    + by rewrite decide_False.
Qed.

Lemma get_set_ne k k' v d :
  k <> k' -> PyDict.get k' (PyDict.set k v d) = PyDict.get k' d.
Proof.
  intros Hne. induction d as [|[k0 v0] d IH]; simpl.
  - by rewrite decide_False.
  - destruct (decide (k = k0)) as [->|]; simpl.
    + by rewrite !decide_False.
    + by rewrite IH.
Qed.

Lemma get_None_keys k d : PyDict.get k d = None <-> k ∉ PyDict.keys d.
Proof.
  unfold PyDict.keys. induction d as [|[k' v'] d IH]; simpl.
  - split; [intros _; apply not_elem_of_nil | done].
  - rewrite not_elem_of_cons. destruct (decide (k = k')) as [->|Hne].
    + split; [done | by intros [? _]].
    + rewrite IH. split; [done | by intros [_ ?]].
Qed.

Lemma get_Some_elem_of k v d : PyDict.get k d = Some v -> (k, v) ∈ d.
Proof.
  induction d as [|[k' v'] d IH]; simpl; [done|].
  destruct (decide (k = k')) as [->|].
  - intros [= ->]. left.
  - intros H. right. auto.
Qed.

Lemma elem_of_get k v d :
  NoDup (PyDict.keys d) -> (k, v) ∈ d -> PyDict.get k d = Some v.
Proof.
  unfold PyDict.keys. induction d as [|[k' v'] d IH]; simpl.
  - intros _ H. by apply elem_of_nil in H.
  - rewrite NoDup_cons. intros [Hk Hd] [[= -> ->]|Hin]%elem_of_cons.
    + by rewrite decide_True.
    + rewrite decide_False; [auto|].
      intros ->. apply Hk. apply list_elem_of_fmap. by exists (k', v).
Qed.

Lemma elem_of_values v d : v ∈ PyDict.values d <-> exists k, (k, v) ∈ d.
Proof.
  unfold PyDict.values. rewrite list_elem_of_fmap. split.
  - intros [[k v'] [-> H]]. by exists k.
  - intros [k H]. by exists (k, v).
Qed.

(** An entry of [d] after [d[k] = v] is the new one or an old one. *)
Lemma elem_of_set k v k' v' d :
  (k', v') ∈ PyDict.set k v d -> (k' = k /\ v' = v) \/ (k', v') ∈ d.
Proof.
  induction d as [|[k0 v0] d IH]; simpl.
  - intros [= -> ->]%list_elem_of_singleton. by left.
  - destruct (decide (k = k0)) as [->|Hne].
    + intros [[= -> ->]|Hin]%elem_of_cons; [by left|]. right. by right.
    + intros [[= -> ->]|Hin]%elem_of_cons.
      * right. by left.
      * destruct (IH Hin) as [?|?]; [by left|]. right. by right.
Qed.

Lemma Forall_set (P : string * V -> Prop) k v d :
  Forall P d -> P (k, v) -> Forall P (PyDict.set k v d).
Proof.
  rewrite !Forall_forall. intros Hd Hkv [k' v'] Hin.
  destruct (elem_of_set _ _ _ _ _ Hin) as [[-> ->]|?]; auto.
Qed.

(** Setting a key keeps the keys in place; a new key goes to the end. *)
Lemma keys_set k v d :
  PyDict.keys (PyDict.set k v d)
  = if PyDict.contains k d then PyDict.keys d else PyDict.keys d ++ [k].
Proof.
  unfold PyDict.keys, PyDict.contains.
  induction d as [|[k0 v0] d IH]; csimpl; [done|].
  destruct (decide (k = k0)) as [->|Hne]; csimpl; [done|].
  rewrite IH. by destruct (PyDict.get k d).
Qed.

Lemma NoDup_keys_set k v d :
  NoDup (PyDict.keys d) -> NoDup (PyDict.keys (PyDict.set k v d)).
Proof.
  intros Hd. rewrite keys_set. unfold PyDict.contains.
  destruct (PyDict.get k d) eqn:Hget; [done|].
  apply NoDup_app. split_and!; [done| |apply NoDup_singleton].
  intros x Hx ->%list_elem_of_singleton. by apply get_None_keys in Hget.
Qed.

Lemma contains_true k d : PyDict.contains k d = true <-> is_Some (PyDict.get k d).
Proof.
  unfold PyDict.contains. destruct (PyDict.get k d); split; done.
Qed.

Lemma contains_false k d : PyDict.contains k d = false <-> PyDict.get k d = None.
Proof. unfold PyDict.contains. by destruct (PyDict.get k d). Qed.
End facts.
End PyDictFacts.

(** ** The random module *)

Module PyRandomFacts.

Lemma randbelow_lt n g : 0 < n -> (PyRandom.randbelow n g).1 < n.
Proof.
  intros Hn. destruct g as [|x g]; simpl; [done|].
  apply Nat.mod_upper_bound. lia.
Qed.

Lemma swap_Permutation {A} (x : list A) i j : PyRandom.swap x i j ≡ₚ x.
Proof.
  unfold PyRandom.swap.
  destruct (x !! i) as [xi|] eqn:Hi; [|done].
  destruct (x !! j) as [xj|] eqn:Hj; [|done].
  by apply Permutation_insert_swap.
Qed.

Lemma shuffle_from_Permutation {A} i (x : list A) g :
  (PyRandom.shuffle_from i x g).1 ≡ₚ x.
Proof.
  revert x g. induction i as [|i IH]; intros x g; [done|].
  cbn [PyRandom.shuffle_from].
  destruct (PyRandom.randbelow (S i + 1) g) as [j g'].
  rewrite IH. apply swap_Permutation.
Qed.

(** [shuffle] rearranges the list: nothing is lost, added or repeated. *)
Lemma shuffle_Permutation {A} (x : list A) g : (PyRandom.shuffle x g).1 ≡ₚ x.
Proof. apply shuffle_from_Permutation. Qed.

(** [choice] of a sequence that is not empty raises nothing and returns
    one of its elements. *)
Lemma choice_Some {A} (seq : list A) g :
  seq <> [] -> exists a, (PyRandom.choice seq g).1 = Some a /\ a ∈ seq.
Proof.
  intros Hne. unfold PyRandom.choice.
  pose proof (randbelow_lt (length seq) g) as Hlt.
  destruct (PyRandom.randbelow (length seq) g) as [i g']; simpl in *.
  destruct (lookup_lt_is_Some_2 seq i) as [a Ha].
  - apply Hlt. destruct seq; [done | simpl; lia].
  - exists a. split; [done|]. apply list_elem_of_lookup. by exists i.
Qed.

Lemma choice_elem_of {A} (seq : list A) g a :
  (PyRandom.choice seq g).1 = Some a -> a ∈ seq.
Proof.
  unfold PyRandom.choice.
  destruct (PyRandom.randbelow (length seq) g) as [i g']; simpl.
  intros H. apply list_elem_of_lookup. by exists i.
Qed.

End PyRandomFacts.

(** ** The loops of the handlers *)

(** A loop that appends [f x] for the elements [x] that pass the test [p]
    computes the image of the filtered list. *)
Lemma foldl_append_filter {A B} (p : A -> bool) (f : A -> B) (l : list A) (acc : list B) :
  foldl (fun acc x => if p x then acc ++ [f x] else acc) acc l
  = acc ++ (f <$> filter (fun x => p x) l).
Proof.
  revert acc. induction l as [|x l IH]; intros acc; simpl.
  - by rewrite app_nil_r.
  - rewrite IH, filter_cons. destruct (p x); simpl; [|done].
    by rewrite <- app_assoc.
Qed.

Lemma create_candidates_filter author users :
  create_candidates author users
  = User.user_id <$> filter (fun u => create_test author u) (PyDict.values users).
Proof.
  unfold create_candidates.
  by rewrite (foldl_append_filter (create_test author) User.user_id).
Qed.

Lemma reassign_candidates_filter old_user old_user_id pr users :
  reassign_candidates old_user old_user_id pr users
  = User.user_id
      <$> filter (fun u => reassign_test old_user old_user_id pr u) (PyDict.values users).
Proof.
  unfold reassign_candidates.
  by rewrite (foldl_append_filter (reassign_test old_user old_user_id pr) User.user_id).
Qed.

Lemma create_test_spec author u :
  create_test author u = true <-> eligible_teammate author u.
Proof.
  unfold create_test, eligible_teammate.
  rewrite !andb_true_iff, negb_true_iff, bool_decide_eq_true, bool_decide_eq_false.
  tauto.
Qed.

Lemma reassign_test_spec old_user old_user_id pr u :
  reassign_test old_user old_user_id pr u = true
  <-> replacement_candidate old_user old_user_id pr u.
Proof.
  unfold reassign_test, replacement_candidate.
  rewrite !andb_true_iff, !negb_true_iff, bool_decide_eq_true, !bool_decide_eq_false.
  tauto.
Qed.

(** The ids of any selection of stored users are distinct. *)
Lemma NoDup_user_ids (P : User.t -> Prop) `{!forall u, Decision (P u)} users :
  users_ok users -> NoDup (User.user_id <$> filter P (PyDict.values users)).
Proof.
  unfold users_ok, PyDict.keys, PyDict.values.
  induction users as [|[k u] users IH]; csimpl; intros [Hnd Hid].
  - constructor.
  - apply NoDup_cons in Hnd as [Hk Hnd]. apply Forall_cons in Hid as [Hu Hid].
    simpl in Hu. rewrite filter_cons.
    assert (Hrest : User.user_id u ∉ User.user_id <$> filter P users.*2).
    { intros (u' & Heq & Hin)%list_elem_of_fmap.
      apply list_elem_of_filter in Hin as [_ Hin].
      apply list_elem_of_fmap in Hin as ([k' u''] & -> & Hin).
      rewrite Forall_forall in Hid. specialize (Hid _ Hin). simpl in *.
      apply Hk. apply list_elem_of_fmap. exists (k', u''). simpl.
      split; [congruence | done]. }
    destruct (decide (P u)); csimpl; [apply NoDup_cons|]; auto.
Qed.

Lemma elem_of_create_candidates author users r :
  r ∈ create_candidates author users
  <-> exists u, u ∈ PyDict.values users /\ eligible_teammate author u /\ User.user_id u = r.
Proof.
  rewrite create_candidates_filter, list_elem_of_fmap. split.
  - intros (u & -> & [Ht Hin]%list_elem_of_filter). exists u.
    split_and!; [done| |done]. apply create_test_spec. by apply Is_true_true.
  - intros (u & Hin & He & <-). exists u. split; [done|].
    apply list_elem_of_filter. split; [|done].
    apply Is_true_true. by apply create_test_spec.
Qed.

Lemma elem_of_reassign_candidates old_user old_user_id pr users r :
  r ∈ reassign_candidates old_user old_user_id pr users
  <-> exists u, u ∈ PyDict.values users
             /\ replacement_candidate old_user old_user_id pr u
             /\ User.user_id u = r.
Proof.
  rewrite reassign_candidates_filter, list_elem_of_fmap. split.
  - intros (u & -> & [Ht Hin]%list_elem_of_filter). exists u.
    split_and!; [done| |done]. apply reassign_test_spec. by apply Is_true_true.
  - intros (u & Hin & He & <-). exists u. split; [done|].
    apply list_elem_of_filter. split; [|done].
    apply Is_true_true. by apply reassign_test_spec.
Qed.

Lemma reassign_candidates_nil old_user old_user_id pr users :
  reassign_candidates old_user old_user_id pr users = []
  <-> forall u, u ∈ PyDict.values users -> ~ replacement_candidate old_user old_user_id pr u.
Proof.
  split.
  - intros Hnil u Hin Hc.
    assert (H : User.user_id u ∈ reassign_candidates old_user old_user_id pr users)
      by (apply elem_of_reassign_candidates; eauto).
    rewrite Hnil in H. by apply elem_of_nil in H.
  - intros Hall.
    destruct (reassign_candidates old_user old_user_id pr users) as [|r l] eqn:Heq; [done|].
    assert (H : r ∈ reassign_candidates old_user old_user_id pr users)
      by (rewrite Heq; left).
    apply elem_of_reassign_candidates in H as (u & Hin & Hc & _).
    by destruct (Hall u Hin).
Qed.

(** ** Replacing a reviewer *)

Lemma length_replace_reviewer old new l :
  length (replace_reviewer old new l) = length l.
Proof. apply length_fmap. Qed.

Lemma replace_reviewer_lookup_old old new l i :
  l !! i = Some old -> replace_reviewer old new l !! i = Some new.
Proof.
  intros H. unfold replace_reviewer. rewrite list_lookup_fmap, H. simpl.
  by rewrite bool_decide_true.
Qed.

Lemma replace_reviewer_lookup_other old new l i r :
  l !! i = Some r -> r <> old -> replace_reviewer old new l !! i = Some r.
Proof.
  intros H Hne. unfold replace_reviewer. rewrite list_lookup_fmap, H. simpl.
  by rewrite bool_decide_false.
Qed.

Lemma replace_reviewer_old_absent old new l :
  new <> old -> old ∉ replace_reviewer old new l.
Proof.
  intros Hne (r & Heq & _)%list_elem_of_fmap.
  destruct (bool_decide (r = old)) eqn:Hr.
  - by apply Hne.
  - apply bool_decide_eq_false in Hr. by apply Hr.
Qed.

Lemma replace_reviewer_new_present old new l :
  old ∈ l -> new ∈ replace_reviewer old new l.
Proof.
  intros [i Hi]%list_elem_of_lookup. apply list_elem_of_lookup. exists i.
  by apply replace_reviewer_lookup_old.
Qed.

Lemma elem_of_replace_reviewer old new l r :
  r ∈ replace_reviewer old new l -> r = new \/ (r ∈ l /\ r <> old).
Proof.
  intros (r' & -> & Hin)%list_elem_of_fmap.
  destruct (bool_decide (r' = old)) eqn:Hr; [by left|].
  apply bool_decide_eq_false in Hr. by right.
Qed.

Lemma NoDup_replace_reviewer old new l :
  NoDup l -> new ∉ l -> NoDup (replace_reviewer old new l).
Proof.
  intros Hl Hnew. apply NoDup_fmap_2_strong; [|done].
  intros x y Hx Hy.
  destruct (bool_decide (x = old)) eqn:Ex, (bool_decide (y = old)) eqn:Ey;
    try apply bool_decide_eq_true in Ex; try apply bool_decide_eq_true in Ey;
    intros Heq; subst; try done.
Qed.

(** ** The outcomes of [reassign_reviewer], in the order of its checks *)

Lemma reassign_reviewer_cases g payload s :
  let pr_id := ReassignReviewerRequest.pull_request_id payload in
  let old_user_id := ReassignReviewerRequest.old_user_id payload in
  let out := reassign_reviewer g payload s in
  (PyDict.get pr_id (prs_by_id s) = None
   /\ out = (JSONResponse 404 NOT_FOUND "PR not found", s))
  \/ (exists pr, PyDict.get pr_id (prs_by_id s) = Some pr /\
      ((PyDict.get old_user_id (users_by_id s) = None
        /\ out = (JSONResponse 404 NOT_FOUND "user not found", s))
       \/ (exists old_user, PyDict.get old_user_id (users_by_id s) = Some old_user /\
          ((PullRequest.status pr = MERGED
            /\ out = (JSONResponse 409 PR_MERGED "cannot reassign on merged PR", s))
           \/ (PullRequest.status pr <> MERGED /\
               (((old_user_id ∉ PullRequest.assigned_reviewers pr)
                 /\ out = (JSONResponse 409 NOT_ASSIGNED
                             "reviewer is not assigned to this PR", s))
                \/ (old_user_id ∈ PullRequest.assigned_reviewers pr /\
                    ((reassign_candidates old_user old_user_id pr (users_by_id s) = []
                      /\ out = (JSONResponse 409 NO_CANDIDATE
                                  "no active replacement candidate in team", s))
                     \/ (exists new_user_id,
                          new_user_id ∈ reassign_candidates old_user old_user_id pr
                                          (users_by_id s)
                          /\ out =
                             (ReassignReviewerResponse
                                (PullRequest.set_assigned_reviewers
                                   (replace_reviewer old_user_id new_user_id
                                      (PullRequest.assigned_reviewers pr)) pr)
                                new_user_id,
                              {| users_by_id := users_by_id s;
                                 prs_by_id :=
                                   PyDict.set pr_id
                                     (PullRequest.set_assigned_reviewers
                                        (replace_reviewer old_user_id new_user_id
                                           (PullRequest.assigned_reviewers pr)) pr)
                                     (prs_by_id s);
                                 teams_exist := teams_exist s |})))))))))).
Proof.
  intros pr_id old_user_id out. subst out. unfold reassign_reviewer.
  fold pr_id old_user_id.
  destruct (PyDict.get pr_id (prs_by_id s)) as [pr|]; [right|by left].
  exists pr. split; [done|].
  destruct (PyDict.get old_user_id (users_by_id s)) as [old_user|]; [right|by left].
  exists old_user. split; [done|].
  case_bool_decide as Hst; [by left|right]. split; [done|].
  case_bool_decide as Hin; simpl; [right|by left]. split; [done|].
  destruct (reassign_candidates old_user old_user_id pr (users_by_id s))
    as [|c cs] eqn:Hc; [by left|right].
  destruct (PyRandomFacts.choice_Some (c :: cs) g) as (new & Hnew & Hmem); [done|].
  rewrite Hnew. by exists new.
Qed.

(** ** The outcomes of [create_pull_request], in the order of its checks *)

Lemma create_pull_request_cases g now payload s :
  let pr_id := CreatePullRequestRequest.pull_request_id payload in
  let out := create_pull_request g now payload s in
  (PyDict.contains pr_id (prs_by_id s) = true
   /\ out = (JSONResponse 409 PR_EXISTS "PR id already exists", s))
  \/ (PyDict.contains pr_id (prs_by_id s) = false /\
      ((PyDict.get (CreatePullRequestRequest.author_id payload) (users_by_id s) = None
        /\ out = (JSONResponse 404 NOT_FOUND "author not found", s))
       \/ (exists author,
             PyDict.get (CreatePullRequestRequest.author_id payload) (users_by_id s)
             = Some author /\
             (((User.team_name author ∉ teams_exist s)
               /\ out = (JSONResponse 404 NOT_FOUND "author team not found", s))
              \/ (User.team_name author ∈ teams_exist s /\
                  exists pr,
                    pr = {| PullRequest.pull_request_id := pr_id;
                            PullRequest.pull_request_name :=
                              CreatePullRequestRequest.pull_request_name payload;
                            PullRequest.author_id := User.user_id author;
                            PullRequest.status := OPEN;
                            PullRequest.assigned_reviewers :=
                              take 2 (PyRandom.shuffle
                                        (create_candidates author (users_by_id s)) g).1;
                            PullRequest.createdAt := Some now;
                            PullRequest.mergedAt := None |}
                    /\ out = (PullRequestResponse pr,
                              {| users_by_id := users_by_id s;
                                 prs_by_id := PyDict.set pr_id pr (prs_by_id s);
                                 teams_exist := teams_exist s |})))))).
Proof.
  intros pr_id out. subst out. unfold create_pull_request. fold pr_id.
  destruct (PyDict.contains pr_id (prs_by_id s)); [by left|right]. split; [done|].
  destruct (PyDict.get _ (users_by_id s)) as [author|]; [right|by left].
  exists author. split; [done|].
  case_bool_decide as Ht; simpl; [right|by left]. split; [done|].
  by eexists.
Qed.

(** The reviewers picked for a new pull request come from the candidates,
    are distinct, and are as many as there are candidates, up to two. *)
Lemma picked_reviewers (candidates : list string) g :
  let picked := take 2 (PyRandom.shuffle candidates g).1 in
  (forall r, r ∈ picked -> r ∈ candidates)
  /\ (NoDup candidates -> NoDup picked)
  /\ length picked = Nat.min 2 (length candidates).
Proof.
  intros picked. subst picked.
  pose proof (PyRandomFacts.shuffle_Permutation candidates g) as Hperm.
  split_and!.
  - intros r Hr. rewrite <- Hperm. by apply (subseteq_take 2).
  - intros Hnd. apply (sublist_NoDup _ (PyRandom.shuffle candidates g).1).
    + by rewrite Hperm.
    + apply sublist_take.
  - by rewrite length_take, Hperm.
Qed.

(** ** Invariants *)

Lemma add_member_users_ok team_name users member :
  users_ok users -> users_ok (add_member team_name users member).
Proof.
  intros [Hnd Hid]. unfold add_member.
  destruct (PyDict.get (TeamMember.user_id member) users) as [existing|] eqn:Hget.
  - split; [by apply PyDictFacts.NoDup_keys_set|].
    apply PyDictFacts.Forall_set; [done|]. simpl.
    apply PyDictFacts.get_Some_elem_of in Hget.
    rewrite Forall_forall in Hid. apply (Hid _ Hget).
  - split; [by apply PyDictFacts.NoDup_keys_set|].
    by apply PyDictFacts.Forall_set.
Qed.

Lemma add_members_users_ok team_name members users :
  users_ok users -> users_ok (foldl (add_member team_name) users members).
Proof.
  revert users. induction members as [|m members IH]; intros users Hok; simpl; [done|].
  apply IH. by apply add_member_users_ok.
Qed.

Lemma prs_ok_set pr_id pr prs :
  prs_ok prs -> PullRequest.pull_request_id pr = pr_id -> reviewers_ok pr ->
  prs_ok (PyDict.set pr_id pr prs).
Proof.
  intros [Hnd Hall] Hid Hrev. split; [by apply PyDictFacts.NoDup_keys_set|].
  by apply PyDictFacts.Forall_set.
Qed.

Lemma prs_ok_get pr_id pr prs :
  prs_ok prs -> PyDict.get pr_id prs = Some pr ->
  PullRequest.pull_request_id pr = pr_id /\ reviewers_ok pr.
Proof.
  intros [_ Hall] Hget%PyDictFacts.get_Some_elem_of.
  rewrite Forall_forall in Hall. apply (Hall _ Hget).
Qed.

Lemma users_ok_get user_id u users :
  users_ok users -> PyDict.get user_id users = Some u -> User.user_id u = user_id.
Proof.
  intros [_ Hall] Hget%PyDictFacts.get_Some_elem_of.
  rewrite Forall_forall in Hall. apply (Hall _ Hget).
Qed.

Lemma create_candidates_NoDup author users :
  users_ok users -> NoDup (create_candidates author users).
Proof. intros Hok. rewrite create_candidates_filter. by apply NoDup_user_ids. Qed.

Lemma store_ok_handle e r s : store_ok s -> store_ok (handle e r s).2.
Proof.
  intros [Hu Hp]. destruct r as [team|tn|payload|payload|payload|payload|uid]; simpl.
  - unfold add_team. case_bool_decide; simpl; [done|].
    split; [|done]. by apply add_members_users_ok.
  - unfold get_team. by destruct (negb _).
  - unfold set_is_active.
    destruct (PyDict.get _ (users_by_id s)) as [user|] eqn:Hget; simpl; [|done].
    split; [|done]. destruct Hu as [Hnd Hid].
    split; [by apply PyDictFacts.NoDup_keys_set|].
    apply PyDictFacts.Forall_set; [done|]. simpl.
    by apply (users_ok_get _ _ (users_by_id s)).
  - destruct (create_pull_request_cases (rng e) (utcnow e) payload s)
      as [[_ ->]|[_ [[_ ->]|(author & Ha & [[_ ->]|(_ & pr & Hpr & ->)])]]]; try done.
    split; [done|]. simpl. apply prs_ok_set; [done|by subst pr|].
    pose proof (picked_reviewers (create_candidates author (users_by_id s)) (rng e))
      as (_ & Hnd & Hlen).
    subst pr. split; simpl.
    + apply Hnd. by apply create_candidates_NoDup.
    + rewrite Hlen. lia.
  - unfold merge_pull_request.
    destruct (PyDict.get _ (prs_by_id s)) as [pr|] eqn:Hget; [|done].
    case_bool_decide; simpl; [done|]. split; [done|].
    destruct (prs_ok_get _ _ _ Hp Hget) as [Hid Hrev]. by apply prs_ok_set.
  - destruct (reassign_reviewer_cases (rng e) payload s)
      as [[_ ->]|(pr & Hget & [[_ ->]|(old_user & Hold & [[_ ->]|(_ &
           [[_ ->]|(Hin & [[_ ->]|(new & Hnew & ->)])])])])]; try done.
    split; [done|]. simpl.
    destruct (prs_ok_get _ _ _ Hp Hget) as [Hid [Hnd Hlen]].
    apply prs_ok_set; [done|done|]. split; simpl.
    + apply NoDup_replace_reviewer; [done|].
      apply elem_of_reassign_candidates in Hnew as (u & _ & Hc & <-). apply Hc.
    + by rewrite length_replace_reviewer.
  - unfold get_user_reviews. by destruct (negb _).
Qed.

Lemma reachable_store_ok s : reachable s -> store_ok s.
Proof.
  induction 1 as [|e r s _ IH].
  - repeat split; simpl; constructor.
  - by apply store_ok_handle.
Qed.

(** * The claims *)

(** ** Merge *)

(** C3: merging a stored pull request that is OPEN succeeds: the stored
    request gets status MERGED and a [mergedAt] that is set (the clock
    reading), its other attributes are kept, and it is what the handler
    returns. Merging it again, or merging any stored request that is
    MERGED, succeeds too, returns the stored request as it is and leaves
    the store as it was. *)
Theorem merge_sets_merged_and_is_idempotent now payload s pr :
  PyDict.get (MergePullRequestRequest.pull_request_id payload) (prs_by_id s) = Some pr ->
  (PullRequest.status pr = OPEN ->
   exists pr' s',
     merge_pull_request now payload s = (PullRequestResponse pr', s')
     /\ PyDict.get (MergePullRequestRequest.pull_request_id payload) (prs_by_id s')
        = Some pr'
     /\ PullRequest.status pr' = MERGED
     /\ PullRequest.mergedAt pr' = Some now
     /\ PullRequest.pull_request_id pr' = PullRequest.pull_request_id pr
     /\ PullRequest.pull_request_name pr' = PullRequest.pull_request_name pr
     /\ PullRequest.author_id pr' = PullRequest.author_id pr
     /\ PullRequest.assigned_reviewers pr' = PullRequest.assigned_reviewers pr
     /\ PullRequest.createdAt pr' = PullRequest.createdAt pr
     /\ forall later, merge_pull_request later payload s' = (PullRequestResponse pr', s'))
  /\ (PullRequest.status pr = MERGED ->
      merge_pull_request now payload s = (PullRequestResponse pr, s)).
Proof.
  intros Hget. split; intros Hst.
  - eexists _, _. split.
    + unfold merge_pull_request. rewrite Hget, Hst. simpl. reflexivity.
    + simpl. rewrite PyDictFacts.get_set_eq. split_and!; try done.
      intros later. unfold merge_pull_request. simpl.
      by rewrite PyDictFacts.get_set_eq.
  - unfold merge_pull_request. rewrite Hget, Hst. by rewrite bool_decide_true.
Qed.

Lemma merge_sets_merged_and_is_idempotent_witness :
  exists pr',
    (merge_pull_request 9%Z Scenario.merge_pr1 Scenario.s_open).1 = PullRequestResponse pr'
    /\ PullRequest.status pr' = MERGED
    /\ PullRequest.mergedAt pr' = Some 9%Z
    /\ merge_pull_request 11%Z Scenario.merge_pr1 Scenario.s_merged
       = (PullRequestResponse pr', Scenario.s_merged).
Proof.
  destruct (merge_sets_merged_and_is_idempotent 9%Z Scenario.merge_pr1 Scenario.s_open
              (PullRequest.mk "pr1" "x" "u1" OPEN ["u2"] (Some 7%Z) None) eq_refl)
    as [Hopen _].
  destruct (Hopen eq_refl) as (pr' & s' & Hout & _ & Hst & Hat & _ & _ & _ & _ & _ & Hagain).
  exists pr'. rewrite Hout. split_and!; try done.
  change Scenario.s_merged
    with (merge_pull_request 9%Z Scenario.merge_pr1 Scenario.s_open).2.
  rewrite Hout. apply Hagain.
Defined.

(** ** Failures leave the store alone *)

(** No handler lets an exception escape: [random.choice] is only reached
    with a list of candidates that is not empty. *)
Lemma handle_never_raises e r s exception : (handle e r s).1 <> Raised exception.
Proof.
  destruct r as [team|tn|payload|payload|payload|payload|uid]; simpl.
  - unfold add_team. by case_bool_decide.
  - unfold get_team. by destruct (negb _).
  - unfold set_is_active. by destruct (PyDict.get _ _).
  - destruct (create_pull_request_cases (rng e) (utcnow e) payload s)
      as [[_ ->]|[_ [[_ ->]|(author & Ha & [[_ ->]|(_ & pr & Hpr & ->)])]]]; done.
  - unfold merge_pull_request. destruct (PyDict.get _ _); [|done].
    by case_bool_decide.
  - destruct (reassign_reviewer_cases (rng e) payload s)
      as [[_ ->]|(pr & Hget & [[_ ->]|(old_user & Hold & [[_ ->]|(_ &
           [[_ ->]|(Hin & [[_ ->]|(new & Hnew & ->)])])])])]; done.
  - unfold get_user_reviews. by destruct (negb _).
Qed.

(** C6: whatever the request and the store, a handler that answers with an
    error returns the store it was given. *)
Theorem error_leaves_store_unchanged e r s :
  is_error (handle e r s).1 = true -> (handle e r s).2 = s.
Proof.
  destruct r as [team|tn|payload|payload|payload|payload|uid]; simpl.
  - unfold add_team. by case_bool_decide.
  - unfold get_team. by destruct (negb _).
  - unfold set_is_active. by destruct (PyDict.get _ _).
  - destruct (create_pull_request_cases (rng e) (utcnow e) payload s)
      as [[_ ->]|[_ [[_ ->]|(author & Ha & [[_ ->]|(_ & pr & Hpr & ->)])]]]; done.
  - unfold merge_pull_request. destruct (PyDict.get _ _); [|done].
    by case_bool_decide.
  - destruct (reassign_reviewer_cases (rng e) payload s)
      as [[_ ->]|(pr & Hget & [[_ ->]|(old_user & Hold & [[_ ->]|(_ &
           [[_ ->]|(Hin & [[_ ->]|(new & Hnew & ->)])])])])]; done.
  - unfold get_user_reviews. by destruct (negb _).
Qed.

Lemma error_leaves_store_unchanged_witness :
  (handle Scenario.env (PostTeamAdd Scenario.team_a) Scenario.s_open).1
  = JSONResponse 400 TEAM_EXISTS "team_name already exists"
  /\ (handle Scenario.env (PostTeamAdd Scenario.team_a) Scenario.s_open).2
     = Scenario.s_open.
Proof.
  split; [reflexivity|].
  apply (error_leaves_store_unchanged Scenario.env (PostTeamAdd Scenario.team_a)
           Scenario.s_open).
  reflexivity.
Defined.

(** ** Creating under an id that is taken *)

(** C7: when the id of the request is already a key of [prs_by_id], create
    answers PR_EXISTS (409) whatever the name and the author of the request
    are, and whether or not the author or the author's team is known: the
    answer does not depend on [users_by_id] or [teams_exist]. *)
Theorem create_existing_id_fails g now payload s :
  PyDict.contains (CreatePullRequestRequest.pull_request_id payload) (prs_by_id s) = true ->
  create_pull_request g now payload s
  = (JSONResponse 409 PR_EXISTS "PR id already exists", s)
  /\ fails_with (create_pull_request g now payload s).1 PR_EXISTS.
Proof.
  intros Hin. unfold create_pull_request. rewrite Hin. split; [done|].
  by eexists _, _.
Qed.

Lemma create_existing_id_fails_witness :
  PyDict.get "nobody" (users_by_id Scenario.s_open) = None
  /\ fails_with
       (create_pull_request [] 8%Z (CreatePullRequestRequest.mk "pr1" "z" "nobody")
          Scenario.s_open).1 PR_EXISTS.
Proof.
  split; [reflexivity|].
  apply (create_existing_id_fails [] 8%Z
           (CreatePullRequestRequest.mk "pr1" "z" "nobody") Scenario.s_open).
  reflexivity.
Defined.

(** ** The reviews of a user *)

(** C8: [get_user_reviews] answers NOT_FOUND exactly when the id is no key of
    [users_by_id]. For a known id it answers with the stored pull requests
    whose reviewers contain the id, in the order of the store, each reduced
    to id, name, author and status: every one that lists the user is there,
    and nothing else is. The store is left as it was. *)
Theorem get_user_reviews_exact user_id s :
  (fails_with (get_user_reviews user_id s).1 NOT_FOUND
   <-> PyDict.get user_id (users_by_id s) = None)
  /\ (is_Some (PyDict.get user_id (users_by_id s)) ->
      exists shorts,
        get_user_reviews user_id s = (UserReviewsResponse user_id shorts, s)
        /\ shorts
           = short <$> filter (fun pr => user_id ∈ PullRequest.assigned_reviewers pr)
                         (PyDict.values (prs_by_id s))
        /\ forall x,
             x ∈ shorts
             <-> exists pr, pr ∈ PyDict.values (prs_by_id s)
                         /\ user_id ∈ PullRequest.assigned_reviewers pr
                         /\ x = short pr).
Proof.
  unfold get_user_reviews, PyDict.contains.
  destruct (PyDict.get user_id (users_by_id s)) as [u|]; simpl.
  - split.
    + split; [|done]. by intros (? & ? & ?).
    + intros _. eexists. split; [reflexivity|].
      rewrite (foldl_append_filter
                 (fun pr => bool_decide (user_id ∈ PullRequest.assigned_reviewers pr))
                 short).
      simpl.
      assert (Hfilter :
        filter (fun pr => bool_decide (user_id ∈ PullRequest.assigned_reviewers pr))
          (PyDict.values (prs_by_id s))
        = filter (fun pr => user_id ∈ PullRequest.assigned_reviewers pr)
            (PyDict.values (prs_by_id s))).
      { apply list_filter_iff. intros pr. apply bool_decide_spec. }
      rewrite Hfilter. split; [done|].
      intros x. rewrite list_elem_of_fmap. split.
      * intros (pr & -> & [Hin Hpr]%list_elem_of_filter). by exists pr.
      * intros (pr & Hpr & Hin & ->). exists pr. split; [done|].
        by apply list_elem_of_filter.
  - split.
    + split; [done|]. intros _. by eexists _, _.
    + by intros [? ?].
Qed.

Lemma get_user_reviews_exact_witness :
  get_user_reviews "u2" Scenario.s_open_b
  = (UserReviewsResponse "u2" [PullRequestShort.mk "pr1" "x" "u1" MERGED],
     Scenario.s_open_b).
Proof.
  destruct (get_user_reviews_exact "u2" Scenario.s_open_b) as [_ Hknown].
  destruct Hknown as (shorts & -> & -> & _); [by eexists|]. reflexivity.
Defined.

(** ** Activating and deactivating a user *)

(** C9: for a known user, [set_is_active] changes the [is_active] attribute of
    that user and nothing else: its id, name and team stay, the keys of
    [users_by_id] and the record under every other key stay, and so do
    [prs_by_id] (with every list of reviewers) and [teams_exist]. *)
Theorem set_is_active_changes_only_the_flag payload s user :
  PyDict.get (SetIsActiveRequest.user_id payload) (users_by_id s) = Some user ->
  exists user' s',
    set_is_active payload s = (UserResponse user', s')
    /\ PyDict.get (SetIsActiveRequest.user_id payload) (users_by_id s') = Some user'
    /\ User.is_active user' = SetIsActiveRequest.is_active payload
    /\ User.user_id user' = User.user_id user
    /\ User.username user' = User.username user
    /\ User.team_name user' = User.team_name user
    /\ PyDict.keys (users_by_id s') = PyDict.keys (users_by_id s)
    /\ (forall k, k <> SetIsActiveRequest.user_id payload ->
                  PyDict.get k (users_by_id s') = PyDict.get k (users_by_id s))
    /\ prs_by_id s' = prs_by_id s
    /\ teams_exist s' = teams_exist s.
Proof.
  intros Hget. unfold set_is_active. rewrite Hget.
  eexists _, _. split; [reflexivity|]. simpl.
  split_and!; try done.
  - apply PyDictFacts.get_set_eq.
  - rewrite PyDictFacts.keys_set. unfold PyDict.contains. by rewrite Hget.
  - intros k Hk. by apply PyDictFacts.get_set_ne.
Qed.

Lemma set_is_active_changes_only_the_flag_witness :
  exists user',
    (set_is_active (SetIsActiveRequest.mk "u2" false) Scenario.s_open).1
    = UserResponse user'
    /\ User.is_active user' = false
    /\ User.team_name user' = "A"
    /\ prs_by_id (set_is_active (SetIsActiveRequest.mk "u2" false) Scenario.s_open).2
       = prs_by_id Scenario.s_open.
Proof.
  destruct (set_is_active_changes_only_the_flag
              (SetIsActiveRequest.mk "u2" false) Scenario.s_open
              (User.mk "u2" "Bob" "A" true) eq_refl)
    as (user' & s' & Hout & _ & Hact & _ & _ & Hteam & _ & _ & Hprs & _).
  exists user'. rewrite Hout. by split_and!.
Defined.

(** ** [mergedAt] and the status *)

Lemma merged_at_ok_handle e r s :
  Forall merged_at_ok (PyDict.values (prs_by_id s)) ->
  Forall merged_at_ok (PyDict.values (prs_by_id (handle e r s).2)).
Proof.
  assert (Hset : forall k pr prs,
    Forall merged_at_ok (PyDict.values prs) -> merged_at_ok pr ->
    Forall merged_at_ok (PyDict.values (PyDict.set k pr prs))).
  { intros k pr prs Hall Hpr. unfold PyDict.values in *.
    rewrite Forall_fmap in *. by apply PyDictFacts.Forall_set. }
  assert (Hlook : forall k pr prs,
    Forall merged_at_ok (PyDict.values prs) -> PyDict.get k prs = Some pr ->
    merged_at_ok pr).
  { intros k pr prs Hall Hin%PyDictFacts.get_Some_elem_of.
    rewrite Forall_forall in Hall. apply Hall.
    apply PyDictFacts.elem_of_values. by exists k. }
  intros Hall. destruct r as [team|tn|payload|payload|payload|payload|uid]; simpl.
  - unfold add_team. by case_bool_decide.
  - unfold get_team. by destruct (negb _).
  - unfold set_is_active. by destruct (PyDict.get _ _).
  - destruct (create_pull_request_cases (rng e) (utcnow e) payload s)
      as [[_ ->]|[_ [[_ ->]|(author & Ha & [[_ ->]|(_ & pr & Hpr & ->)])]]]; try done.
    simpl. apply Hset; [done|]. subst pr. unfold merged_at_ok. simpl. split; done.
  - unfold merge_pull_request.
    destruct (PyDict.get _ (prs_by_id s)) as [pr|] eqn:Hget; [|done].
    case_bool_decide; simpl; [done|]. apply Hset; [done|].
    unfold merged_at_ok. simpl. split; done.
  - destruct (reassign_reviewer_cases (rng e) payload s)
      as [[_ ->]|(pr & Hget & [[_ ->]|(old_user & Hold & [[_ ->]|(_ &
           [[_ ->]|(Hin & [[_ ->]|(new & Hnew & ->)])])])])]; try done.
    simpl. apply Hset; [done|]. apply (Hlook _ _ _ Hall Hget).
  - unfold get_user_reviews. by destruct (negb _).
Qed.

(** C10: in every reachable store every stored pull request has [mergedAt]
    set if and only if its status is MERGED, and this still holds in the
    store that any request leaves. *)
Theorem merged_at_set_iff_merged s :
  reachable s ->
  (forall pr, pr ∈ PyDict.values (prs_by_id s) ->
              (PullRequest.mergedAt pr <> None <-> PullRequest.status pr = MERGED))
  /\ (forall e r pr, pr ∈ PyDict.values (prs_by_id (handle e r s).2) ->
                     (PullRequest.mergedAt pr <> None <-> PullRequest.status pr = MERGED)).
Proof.
  intros Hreach.
  assert (Hall : Forall merged_at_ok (PyDict.values (prs_by_id s))).
  { induction Hreach as [|e r s _ IH]; [constructor|]. by apply merged_at_ok_handle. }
  split.
  - intros pr Hpr. rewrite Forall_forall in Hall. by apply Hall.
  - intros e r pr Hpr. pose proof (merged_at_ok_handle e r s Hall) as Hall'.
    rewrite Forall_forall in Hall'. by apply Hall'.
Qed.

Lemma merged_at_set_iff_merged_witness :
  reachable Scenario.s_open_b
  /\ (PullRequest.mergedAt (PullRequest.mk "pr1" "x" "u1" MERGED ["u2"] (Some 7%Z) (Some 9%Z))
      <> None <-> MERGED = MERGED)
  /\ (PullRequest.mergedAt (PullRequest.mk "pr2" "y" "v1" OPEN ["v3"; "v4"] (Some 7%Z) None)
      <> None <-> OPEN = MERGED).
Proof.
  assert (Hreach : reachable Scenario.s_open_b) by (repeat constructor).
  destruct (merged_at_set_iff_merged Scenario.s_open_b Hreach) as [Hall _].
  split_and!; [done| |].
  - apply (Hall (PullRequest.mk "pr1" "x" "u1" MERGED ["u2"] (Some 7%Z) (Some 9%Z))).
    vm_compute. left.
  - apply (Hall (PullRequest.mk "pr2" "y" "v1" OPEN ["v3"; "v4"] (Some 7%Z) None)).
    vm_compute. right. left.
Defined.

(** ** Reassigning a reviewer *)

(** C2: when [reassign_reviewer] succeeds on a pull request of a reachable
    store, the request was OPEN and listed the old reviewer; in the request
    returned (which is the one stored afterwards) the old reviewer is gone,
    the replacement is there at the old reviewer's place, the list is as
    long as before and has no duplicates, and every other reviewer is where
    it was. *)
Theorem reassign_replaces_old_reviewer g payload s pr pr' replaced_by s' :
  reachable s ->
  PyDict.get (ReassignReviewerRequest.pull_request_id payload) (prs_by_id s) = Some pr ->
  reassign_reviewer g payload s = (ReassignReviewerResponse pr' replaced_by, s') ->
  let old_user_id := ReassignReviewerRequest.old_user_id payload in
  PullRequest.status pr = OPEN
  /\ old_user_id ∈ PullRequest.assigned_reviewers pr
  /\ (old_user_id ∉ PullRequest.assigned_reviewers pr')
  /\ replaced_by ∈ PullRequest.assigned_reviewers pr'
  /\ length (PullRequest.assigned_reviewers pr') = length (PullRequest.assigned_reviewers pr)
  /\ NoDup (PullRequest.assigned_reviewers pr')
  /\ (forall i r, PullRequest.assigned_reviewers pr !! i = Some r -> r <> old_user_id ->
                  PullRequest.assigned_reviewers pr' !! i = Some r)
  /\ (forall i, PullRequest.assigned_reviewers pr !! i = Some old_user_id ->
                PullRequest.assigned_reviewers pr' !! i = Some replaced_by)
  /\ PyDict.get (ReassignReviewerRequest.pull_request_id payload) (prs_by_id s') = Some pr'.
Proof.
  intros Hreach Hget Hout old_user_id.
  destruct (reachable_store_ok s Hreach) as [_ Hprs].
  destruct (prs_ok_get _ _ _ Hprs Hget) as [_ [Hnd _]].
  destruct (reassign_reviewer_cases g payload s)
    as [[_ Hn]|(pr0 & Hget0 & [[_ Hn]|(old_user & Hold & [[_ Hn]|(Hst &
         [[_ Hn]|(Hin & [[_ Hn]|(new & Hnew & Hn)])])])])];
    rewrite Hn in Hout; try discriminate.
  rewrite Hget in Hget0. injection Hget0 as <-.
  injection Hout as <- <- <-. simpl.
  apply elem_of_reassign_candidates in Hnew as (u & _ & (_ & _ & Hne & Hnotin) & <-).
  split_and!.
  - by destruct (PullRequest.status pr).
  - done.
  - by apply replace_reviewer_old_absent.
  - by apply replace_reviewer_new_present.
  - apply length_replace_reviewer.
  - by apply NoDup_replace_reviewer.
  - intros i r. apply replace_reviewer_lookup_other.
  - intros i. apply replace_reviewer_lookup_old.
  - apply PyDictFacts.get_set_eq.
Qed.

Lemma reassign_replaces_old_reviewer_witness :
  reassign_reviewer [1] Scenario.reassign_pr2_v3 Scenario.s_open_b
  = (ReassignReviewerResponse
       (PullRequest.mk "pr2" "y" "v1" OPEN ["v2"; "v4"] (Some 7%Z) None) "v2",
     (reassign_reviewer [1] Scenario.reassign_pr2_v3 Scenario.s_open_b).2)
  /\ ("v3" ∉ ["v2"; "v4"])
  /\ NoDup ["v2"; "v4"].
Proof.
  assert (Hreach : reachable Scenario.s_open_b) by (repeat constructor).
  assert (Hout : reassign_reviewer [1] Scenario.reassign_pr2_v3 Scenario.s_open_b
                 = (ReassignReviewerResponse
                      (PullRequest.mk "pr2" "y" "v1" OPEN ["v2"; "v4"] (Some 7%Z) None) "v2",
                    (reassign_reviewer [1] Scenario.reassign_pr2_v3 Scenario.s_open_b).2))
    by reflexivity.
  destruct (reassign_replaces_old_reviewer [1] Scenario.reassign_pr2_v3 Scenario.s_open_b
              (PullRequest.mk "pr2" "y" "v1" OPEN ["v3"; "v4"] (Some 7%Z) None)
              _ _ _ Hreach eq_refl Hout)
    as (_ & _ & Habsent & _ & _ & Hnd & _).
  by split_and!.
Defined.

(** C5: the checks of [reassign_reviewer] in their order. It answers
    NOT_FOUND exactly when the pull request or the old reviewer is unknown;
    with both known, PR_MERGED exactly when the request is MERGED; else
    NOT_ASSIGNED exactly when the old reviewer is not among the reviewers;
    else NO_CANDIDATE exactly when no stored user is a replacement candidate
    (active, in the old reviewer's team, not the old reviewer, not assigned);
    and it succeeds exactly when there is such a user. *)
Theorem reassign_checks_in_order g payload s :
  let pr_id := ReassignReviewerRequest.pull_request_id payload in
  let old_user_id := ReassignReviewerRequest.old_user_id payload in
  let out := (reassign_reviewer g payload s).1 in
  (fails_with out NOT_FOUND
   <-> PyDict.get pr_id (prs_by_id s) = None
       \/ PyDict.get old_user_id (users_by_id s) = None)
  /\ forall pr old_user,
       PyDict.get pr_id (prs_by_id s) = Some pr ->
       PyDict.get old_user_id (users_by_id s) = Some old_user ->
       (fails_with out PR_MERGED <-> PullRequest.status pr = MERGED)
       /\ (PullRequest.status pr <> MERGED ->
           (fails_with out NOT_ASSIGNED
            <-> old_user_id ∉ PullRequest.assigned_reviewers pr)
           /\ (old_user_id ∈ PullRequest.assigned_reviewers pr ->
               (fails_with out NO_CANDIDATE
                <-> forall u, u ∈ PyDict.values (users_by_id s) ->
                              ~ replacement_candidate old_user old_user_id pr u)
               /\ ((exists pr' replaced_by,
                       out = ReassignReviewerResponse pr' replaced_by)
                   <-> exists u, u ∈ PyDict.values (users_by_id s)
                              /\ replacement_candidate old_user old_user_id pr u))).
Proof.
  intros pr_id old_user_id out. subst pr_id old_user_id out.
  assert (Hcode : forall st c m c', fails_with (JSONResponse st c m) c' <-> c = c').
  { intros st c m c'. split; [by intros (? & ? & [= _ -> _])|intros ->; by eexists _, _]. }
  assert (Hok : forall p n c, ~ fails_with (ReassignReviewerResponse p n) c).
  { by intros p n c (? & ? & ?). }
  destruct (reassign_reviewer_cases g payload s)
    as [[Hnone ->]|(pr0 & Hget0 & [[Hunone ->]|(old_user0 & Hold0 & [[Hst ->]|
         (Hst & [[Hin ->]|(Hin & [[Hnil ->]|(new & Hnew & ->)])])])])];
    simpl.
  - split; [rewrite Hcode; by split; [left|]|]. intros ? ? ?. congruence.
  - split; [rewrite Hcode; by split; [right|]|]. intros ? ? ? ?. congruence.
  - split.
    { rewrite Hcode. split; [done|]. intros [?|?]; congruence. }
    intros pr old_user Hget Hold. rewrite Hget in Hget0. injection Hget0 as <-.
    split; [by rewrite Hcode|]. done.
  - split.
    { rewrite Hcode. split; [done|]. intros [?|?]; congruence. }
    intros pr old_user Hget Hold. rewrite Hget in Hget0. injection Hget0 as <-.
    split; [by rewrite Hcode|]. intros _.
    split; [by rewrite Hcode|]. done.
  - split.
    { rewrite Hcode. split; [done|]. intros [?|?]; congruence. }
    intros pr old_user Hget Hold. rewrite Hget in Hget0. injection Hget0 as <-.
    rewrite Hold in Hold0. injection Hold0 as <-.
    split; [by rewrite Hcode|]. intros _.
    split; [rewrite Hcode; by split|]. intros _.
    pose proof (proj1 (reassign_candidates_nil _ _ _ _) Hnil) as Hnone. split.
    + by rewrite Hcode.
    + split; [by intros (? & ? & ?)|]. intros (u & Hu & Hc). by destruct (Hnone u Hu).
  - split.
    { split; [by intros ?%Hok|]. intros [?|?]; congruence. }
    intros pr old_user Hget Hold. rewrite Hget in Hget0. injection Hget0 as <-.
    rewrite Hold in Hold0. injection Hold0 as <-.
    apply elem_of_reassign_candidates in Hnew as (u & Hu & Hc & _).
    split; [split; [by intros ?%Hok|done]|]. intros _.
    split; [split; [by intros ?%Hok|done]|]. intros _.
    split.
    + split; [by intros ?%Hok|]. intros Hnone. by destruct (Hnone u Hu).
    + split; [by exists u|]. intros _. by eexists _, _.
Qed.

Lemma reassign_checks_in_order_witness :
  fails_with
    (reassign_reviewer [] Scenario.reassign_pr1_u2 Scenario.s_merged).1 PR_MERGED
  /\ fails_with
       (reassign_reviewer [] (ReassignReviewerRequest.mk "pr2" "v2") Scenario.s_open_b).1
       NOT_ASSIGNED.
Proof.
  split.
  - destruct (reassign_checks_in_order [] Scenario.reassign_pr1_u2 Scenario.s_merged)
      as [_ Hknown].
    destruct (Hknown (PullRequest.mk "pr1" "x" "u1" MERGED ["u2"] (Some 7%Z) (Some 9%Z))
                (User.mk "u2" "Bob" "A" true) eq_refl eq_refl) as [Hmerged _].
    by apply Hmerged.
  - destruct (reassign_checks_in_order [] (ReassignReviewerRequest.mk "pr2" "v2")
                Scenario.s_open_b) as [_ Hknown].
    destruct (Hknown (PullRequest.mk "pr2" "y" "v1" OPEN ["v3"; "v4"] (Some 7%Z) None)
                (User.mk "v2" "Eve" "B" true) eq_refl eq_refl) as [_ Hopen].
    destruct Hopen as [Hna _]; [done|]. apply Hna.
    apply (bool_decide_unpack _). vm_compute. exact I.
Defined.

(** ** Creating a pull request *)

(** C4: in a reachable store, the pull request that create returns is the
    one it stores under the id of the request, and its reviewers are active
    users of the author's team, none of them is the author, they are at most
    two and distinct. Whenever the id is new, the author is known and the
    author's team is registered, create succeeds and stores the pull
    request, with as many reviewers as there are eligible teammates, up to
    two: none or one when there are fewer than two, and no error. *)
Theorem create_assigns_active_teammates g now payload s :
  reachable s ->
  let author_id := CreatePullRequestRequest.author_id payload in
  (forall pr s',
     create_pull_request g now payload s = (PullRequestResponse pr, s') ->
     PyDict.get (CreatePullRequestRequest.pull_request_id payload) (prs_by_id s') = Some pr
     /\ PullRequest.author_id pr = author_id
     /\ (forall r, r ∈ PullRequest.assigned_reviewers pr ->
                   exists author u,
                     PyDict.get author_id (users_by_id s) = Some author
                     /\ PyDict.get r (users_by_id s) = Some u
                     /\ User.is_active u = true
                     /\ User.team_name u = User.team_name author)
     /\ (author_id ∉ PullRequest.assigned_reviewers pr)
     /\ length (PullRequest.assigned_reviewers pr) <= 2
     /\ NoDup (PullRequest.assigned_reviewers pr))
  /\ (forall author,
        PyDict.contains (CreatePullRequestRequest.pull_request_id payload) (prs_by_id s)
        = false ->
        PyDict.get author_id (users_by_id s) = Some author ->
        User.team_name author ∈ teams_exist s ->
        exists pr s',
          create_pull_request g now payload s = (PullRequestResponse pr, s')
          /\ PyDict.get (CreatePullRequestRequest.pull_request_id payload) (prs_by_id s')
             = Some pr
          /\ length (PullRequest.assigned_reviewers pr)
             = Nat.min 2 (length (filter (eligible_teammate author)
                                    (PyDict.values (users_by_id s))))).
Proof.
  intros Hreach author_id. subst author_id.
  destruct (reachable_store_ok s Hreach) as [Husers _].
  destruct (create_pull_request_cases g now payload s)
    as [[Hin Hn]|[Hnew [[Ha Hn]|(author & Ha & [[Ht Hn]|(Ht & pr0 & Hpr & Hn)])]]].
  1-3: split; [intros pr s' Hout; rewrite Hn in Hout; discriminate|];
       intros author' Hnew' Ha' Ht'; congruence.
  pose proof (picked_reviewers (create_candidates author (users_by_id s)) g)
    as (Hsub & Hnd & Hlen).
  pose proof (users_ok_get _ _ _ Husers Ha) as Hid.
  split.
  - intros pr s' Hout. rewrite Hn in Hout. injection Hout as <- <-. subst pr0. simpl.
    split_and!.
    + apply PyDictFacts.get_set_eq.
    + done.
    + intros r Hr. apply Hsub in Hr.
      apply elem_of_create_candidates in Hr as (u & Hu & (Hteam & _ & Hact) & <-).
      exists author, u. split_and!; try done.
      apply PyDictFacts.elem_of_values in Hu as [k Hu].
      destruct Husers as [Hkeys Hall]. rewrite Forall_forall in Hall.
      pose proof (Hall _ Hu) as Hk. simpl in Hk. rewrite Hk.
      by apply PyDictFacts.elem_of_get.
    + intros Hr. apply Hsub in Hr.
      apply elem_of_create_candidates in Hr as (u & _ & (_ & Hne & _) & Heq).
      congruence.
    + rewrite Hlen. apply Nat.le_min_l.
    + apply Hnd. by apply create_candidates_NoDup.
  - intros author' _ Ha' _. rewrite Ha in Ha'. injection Ha' as <-.
    eexists _, _. split; [exact Hn|]. subst pr0.
    split; [apply PyDictFacts.get_set_eq|].
    cbn [PullRequest.assigned_reviewers]. rewrite Hlen.
    rewrite create_candidates_filter, length_fmap. do 2 f_equal.
    apply list_filter_iff. intros u. rewrite <- create_test_spec.
    apply Is_true_true.
Qed.

Lemma create_assigns_active_teammates_witness :
  reachable Scenario.s_team
  /\ create_pull_request [] 7%Z Scenario.create_pr1 Scenario.s_team
     = (PullRequestResponse (PullRequest.mk "pr1" "x" "u1" OPEN ["u2"] (Some 7%Z) None),
        Scenario.s_open)
  /\ PyDict.get "pr1" (prs_by_id Scenario.s_team) = None
  /\ PyDict.get "pr1" (prs_by_id Scenario.s_open)
     = Some (PullRequest.mk "pr1" "x" "u1" OPEN ["u2"] (Some 7%Z) None)
  /\ ("u1" ∉ ["u2"])
  /\ NoDup ["u2"].
Proof.
  assert (Hreach : reachable Scenario.s_team) by (repeat constructor).
  destruct (create_assigns_active_teammates [] 7%Z Scenario.create_pr1 Scenario.s_team
              Hreach) as [Hok _].
  destruct (Hok (PullRequest.mk "pr1" "x" "u1" OPEN ["u2"] (Some 7%Z) None)
              Scenario.s_open eq_refl) as (Hstored & _ & _ & Hauthor & _ & Hnd).
  by split_and!.
Defined.

(** ** The author among the reviewers *)

(** Every request but a reassignment keeps the authors out of the reviewers
    of the stored pull requests: create leaves the author out of its
    candidates, and the other handlers do not touch the reviewers. *)
Lemma author_not_reviewer_handle e r s :
  (forall payload, r <> PostPullRequestReassign payload) ->
  Forall author_not_reviewer (PyDict.values (prs_by_id s)) ->
  Forall author_not_reviewer (PyDict.values (prs_by_id (handle e r s).2)).
Proof.
  assert (Hset : forall k pr prs,
    Forall author_not_reviewer (PyDict.values prs) -> author_not_reviewer pr ->
    Forall author_not_reviewer (PyDict.values (PyDict.set k pr prs))).
  { intros k pr prs Hall Hpr. unfold PyDict.values in *.
    rewrite Forall_fmap in *. by apply PyDictFacts.Forall_set. }
  intros Hr Hall. destruct r as [team|tn|payload|payload|payload|payload|uid]; simpl.
  - unfold add_team. by case_bool_decide.
  - unfold get_team. by destruct (negb _).
  - unfold set_is_active. by destruct (PyDict.get _ _).
  - destruct (create_pull_request_cases (rng e) (utcnow e) payload s)
      as [[_ ->]|[_ [[_ ->]|(author & Ha & [[_ ->]|(_ & pr & Hpr & ->)])]]]; try done.
    simpl. apply Hset; [done|]. subst pr. unfold author_not_reviewer. simpl.
    intros Hin.
    apply (picked_reviewers (create_candidates author (users_by_id s)) (rng e)) in Hin.
    apply elem_of_create_candidates in Hin as (u & _ & (_ & Hne & _) & Heq).
    congruence.
  - unfold merge_pull_request.
    destruct (PyDict.get _ (prs_by_id s)) as [pr|] eqn:Hget; [|done].
    case_bool_decide; simpl; [done|]. apply Hset; [done|].
    apply PyDictFacts.get_Some_elem_of in Hget.
    rewrite Forall_forall in Hall. apply (Hall pr).
    apply PyDictFacts.elem_of_values. by eexists.
  - by destruct (Hr payload).
  - unfold get_user_reviews. by destruct (negb _).
Qed.

(** C1 (the code at the failing input): in the example of the specification,
    after team A is registered and u1 has opened pr1, whose only reviewer is
    then u2, reassigning u2 succeeds whatever the random draws are, with the
    author u1 as the replacement: the stored pull request then has its own
    author as its reviewer. *)
Theorem reassign_assigns_the_author g :
  reachable Scenario.s_open
  /\ Forall author_not_reviewer (PyDict.values (prs_by_id Scenario.s_open))
  /\ exists pr s',
       reassign_reviewer g Scenario.reassign_pr1_u2 Scenario.s_open
       = (ReassignReviewerResponse pr "u1", s')
       /\ PyDict.get "pr1" (prs_by_id s') = Some pr
       /\ PullRequest.author_id pr = "u1"
       /\ PullRequest.assigned_reviewers pr = ["u1"]
       /\ ~ author_not_reviewer pr.
Proof.
  split; [repeat constructor|]. split.
  { apply (bool_decide_unpack _). vm_compute. exact I. }
  exists (PullRequest.mk "pr1" "x" "u1" OPEN ["u1"] (Some 7%Z) None).
  eexists. split_and!.
  - destruct g as [|x g].
    + reflexivity.
    + unfold reassign_reviewer.
      change (PyDict.get (ReassignReviewerRequest.pull_request_id Scenario.reassign_pr1_u2)
                (prs_by_id Scenario.s_open))
        with (Some (PullRequest.mk "pr1" "x" "u1" OPEN ["u2"] (Some 7%Z) None)).
      change (PyDict.get (ReassignReviewerRequest.old_user_id Scenario.reassign_pr1_u2)
                (users_by_id Scenario.s_open))
        with (Some (User.mk "u2" "Bob" "A" true)).
      cbv beta iota zeta.
      change (reassign_candidates _ _ _ _) with ["u1"].
      unfold PyRandom.choice, PyRandom.randbelow.
      cbn [length]. rewrite Nat.mod_1_r. reflexivity.
  - reflexivity.
  - reflexivity.
  - reflexivity.
  - unfold author_not_reviewer. simpl. intros H. apply H. left.
Qed.

(** * Further properties of the handlers *)

(** ** More on dictionaries *)

Module PyDictMore.
Section more.
Context {V : Type}.
Implicit Types (d : list (string * V)) (k : string) (v : V).

(** Setting a key twice is setting it to the last value. *)
Lemma set_set k v v' d : PyDict.set k v (PyDict.set k v' d) = PyDict.set k v d.
Proof.
  induction d as [|[k0 v0] d IH]; simpl.
  - by rewrite decide_True.
  - destruct (decide (k = k0)) as [->|Hne]; simpl.
    + by rewrite decide_True.
    + rewrite decide_False by done. by rewrite IH.
Qed.

Lemma get_set k k' v d :
  PyDict.get k' (PyDict.set k v d) = if decide (k = k') then Some v else PyDict.get k' d.
Proof.
  destruct (decide (k = k')) as [->|Hne].
  - apply PyDictFacts.get_set_eq.
  - by apply PyDictFacts.get_set_ne.
Qed.

Lemma is_Some_get_set k k' v d :
  is_Some (PyDict.get k' d) -> is_Some (PyDict.get k' (PyDict.set k v d)).
Proof. rewrite get_set. by destruct (decide (k = k')). Qed.

(** The keys before an assignment are the first keys after it. *)
Lemma keys_set_prefix k v d : PyDict.keys d `prefix_of` PyDict.keys (PyDict.set k v d).
Proof.
  rewrite PyDictFacts.keys_set. destruct (PyDict.contains k d); [done|].
  by apply prefix_app_r.
Qed.

Lemma get_elem_of_values k v d : PyDict.get k d = Some v -> v ∈ PyDict.values d.
Proof.
  intros H%PyDictFacts.get_Some_elem_of. apply PyDictFacts.elem_of_values. by exists k.
Qed.

Lemma Forall_values_set (P : V -> Prop) k v d :
  Forall P (PyDict.values d) -> P v -> Forall P (PyDict.values (PyDict.set k v d)).
Proof.
  intros Hall Hv. unfold PyDict.values in *. rewrite Forall_fmap in *.
  by apply PyDictFacts.Forall_set.
Qed.
End more.
End PyDictMore.

(** ** The members loop of [add_team] *)

Lemma get_add_member team_name users member k :
  PyDict.get k (add_member team_name users member)
  = if decide (TeamMember.user_id member = k) then
      Some (match PyDict.get (TeamMember.user_id member) users with
            | Some existing =>
                User.mk (User.user_id existing) (TeamMember.username member)
                  team_name (TeamMember.is_active member)
            | None => user_of_member team_name member
            end)
    else PyDict.get k users.
Proof.
  unfold add_member.
  destruct (PyDict.get (TeamMember.user_id member) users) as [existing|];
    by rewrite PyDictMore.get_set.
Qed.

Lemma get_add_member_ok team_name users member :
  users_ok users ->
  PyDict.get (TeamMember.user_id member) (add_member team_name users member)
  = Some (user_of_member team_name member).
Proof.
  intros Hok. rewrite get_add_member, decide_True by done.
  destruct (PyDict.get (TeamMember.user_id member) users) as [existing|] eqn:Hget; [|done].
  by rewrite (users_ok_get _ _ _ Hok Hget).
Qed.

Lemma get_add_members_other team_name members users k :
  k ∉ TeamMember.user_id <$> members ->
  PyDict.get k (foldl (add_member team_name) users members) = PyDict.get k users.
Proof.
  revert users. induction members as [|m members IH]; intros users Hk; [done|].
  csimpl in *. apply not_elem_of_cons in Hk as [Hne Hk].
  rewrite IH by done. rewrite get_add_member. by rewrite decide_False.
Qed.

(** The record stored for a member id is the one of the last member of the
    payload with that id. *)
Lemma get_add_members_last team_name before member after users :
  users_ok users ->
  TeamMember.user_id member ∉ TeamMember.user_id <$> after ->
  PyDict.get (TeamMember.user_id member)
    (foldl (add_member team_name) users (before ++ member :: after))
  = Some (user_of_member team_name member).
Proof.
  intros Hok Hlast. rewrite foldl_app. simpl.
  rewrite get_add_members_other by done.
  apply get_add_member_ok. by apply add_members_users_ok.
Qed.

Lemma keys_add_members_prefix team_name members users :
  PyDict.keys users `prefix_of` PyDict.keys (foldl (add_member team_name) users members).
Proof.
  revert users. induction members as [|m members IH]; intros users; [done|].
  simpl. etrans; [|apply IH]. unfold add_member.
  destruct (PyDict.get _ users); apply PyDictMore.keys_set_prefix.
Qed.

Lemma is_Some_get_add_members team_name members users k :
  is_Some (PyDict.get k users) ->
  is_Some (PyDict.get k (foldl (add_member team_name) users members)).
Proof.
  revert users. induction members as [|m members IH]; intros users Hk; [done|].
  simpl. apply IH. rewrite get_add_member. by case_decide.
Qed.

(** After the loop every stored user is in the new team or was stored, with
    its team, before. *)
Lemma team_name_add_members team_name members users u :
  u ∈ PyDict.values (foldl (add_member team_name) users members) ->
  User.team_name u = team_name
  \/ exists u0, u0 ∈ PyDict.values users /\ User.team_name u0 = User.team_name u.
Proof.
  revert users. induction members as [|m members IH]; intros users Hu; simpl in *.
  - right. by exists u.
  - destruct (IH _ Hu) as [?|(u0 & Hu0 & Heq)]; [by left|].
    apply PyDictFacts.elem_of_values in Hu0 as [k Hu0]. unfold add_member in Hu0.
    destruct (PyDict.get _ users) as [existing|];
      apply PyDictFacts.elem_of_set in Hu0 as [[_ ->]|Hin];
      try (left; by rewrite <- Heq);
      right; exists u0; (split; [apply PyDictFacts.elem_of_values; by exists k | done]).
Qed.

(** ** Two more invariants *)

Lemma users_ok_value_get users u :
  users_ok users -> u ∈ PyDict.values users -> PyDict.get (User.user_id u) users = Some u.
Proof.
  intros [Hnd Hall] [k Hu]%PyDictFacts.elem_of_values.
  rewrite Forall_forall in Hall. pose proof (Hall _ Hu) as Hk. simpl in Hk.
  rewrite Hk. by apply PyDictFacts.elem_of_get.
Qed.

Lemma teams_registered_handle e r s :
  teams_registered s -> teams_registered (handle e r s).2.
Proof.
  unfold teams_registered. intros Hall.
  destruct r as [team|tn|payload|payload|payload|payload|uid]; simpl.
  - unfold add_team. case_bool_decide; simpl; [done|].
    apply Forall_forall. intros u Hu.
    destruct (team_name_add_members _ _ _ _ Hu) as [->|(u0 & Hu0 & <-)].
    + apply elem_of_union. left. by apply elem_of_singleton.
    + rewrite Forall_forall in Hall. apply elem_of_union. right. by apply Hall.
  - unfold get_team. by destruct (negb _).
  - unfold set_is_active.
    destruct (PyDict.get _ (users_by_id s)) as [user|] eqn:Hget; simpl; [|done].
    apply PyDictMore.Forall_values_set; [done|]. simpl.
    rewrite Forall_forall in Hall. apply Hall.
    by apply (PyDictMore.get_elem_of_values (SetIsActiveRequest.user_id payload)).
  - by destruct (create_pull_request_cases (rng e) (utcnow e) payload s)
      as [[_ ->]|[_ [[_ ->]|(author & Ha & [[_ ->]|(_ & pr & Hpr & ->)])]]].
  - unfold merge_pull_request. destruct (PyDict.get _ _); [|done].
    by case_bool_decide.
  - by destruct (reassign_reviewer_cases (rng e) payload s)
      as [[_ ->]|(pr & Hget & [[_ ->]|(old_user & Hold & [[_ ->]|(_ &
           [[_ ->]|(Hin & [[_ ->]|(new & Hnew & ->)])])])])].
  - unfold get_user_reviews. by destruct (negb _).
Qed.

Lemma reachable_teams_registered s : reachable s -> teams_registered s.
Proof.
  induction 1 as [|e r s _ IH]; [constructor|]. by apply teams_registered_handle.
Qed.

Lemma create_candidate_known author users r :
  users_ok users -> r ∈ create_candidates author users -> is_Some (PyDict.get r users).
Proof.
  intros Hok (u & Hu & _ & <-)%elem_of_create_candidates.
  rewrite (users_ok_value_get _ _ Hok Hu). by eexists.
Qed.

Lemma reassign_candidate_known old_user old_user_id pr users r :
  users_ok users -> r ∈ reassign_candidates old_user old_user_id pr users ->
  is_Some (PyDict.get r users).
Proof.
  intros Hok (u & Hu & _ & <-)%elem_of_reassign_candidates.
  rewrite (users_ok_value_get _ _ Hok Hu). by eexists.
Qed.

Lemma refs_known_handle e r s :
  store_ok s -> refs_known s -> refs_known (handle e r s).2.
Proof.
  unfold refs_known. intros [Hu Hp] Hall.
  assert (Hgrow : forall users' : list (string * User.t),
    (forall k, is_Some (PyDict.get k (users_by_id s)) -> is_Some (PyDict.get k users')) ->
    Forall (fun pr =>
              is_Some (PyDict.get (PullRequest.author_id pr) users')
              /\ Forall (fun r => is_Some (PyDict.get r users'))
                   (PullRequest.assigned_reviewers pr))
           (PyDict.values (prs_by_id s))).
  { intros users' Hmono. eapply Forall_impl; [exact Hall|]. simpl.
    intros pr [Ha Hr]. split; [by apply Hmono|].
    eapply Forall_impl; [exact Hr|]. simpl. auto. }
  destruct r as [team|tn|payload|payload|payload|payload|uid]; simpl.
  - unfold add_team. case_bool_decide; simpl; [done|].
    apply Hgrow. intros k. apply is_Some_get_add_members.
  - unfold get_team. by destruct (negb _).
  - unfold set_is_active.
    destruct (PyDict.get _ (users_by_id s)) as [user|] eqn:Hget; simpl; [|done].
    apply Hgrow. intros k. apply PyDictMore.is_Some_get_set.
  - destruct (create_pull_request_cases (rng e) (utcnow e) payload s)
      as [[_ ->]|[_ [[_ ->]|(author & Ha & [[_ ->]|(_ & pr & Hpr & ->)])]]]; try done.
    simpl. apply PyDictMore.Forall_values_set; [done|]. subst pr. simpl. split.
    + rewrite (users_ok_get _ _ _ Hu Ha), Ha. by eexists.
    + apply Forall_forall. intros r Hr.
      apply (picked_reviewers (create_candidates author (users_by_id s)) (rng e)) in Hr.
      by apply (create_candidate_known author).
  - unfold merge_pull_request.
    destruct (PyDict.get _ (prs_by_id s)) as [pr|] eqn:Hget; [|done].
    case_bool_decide; simpl; [done|].
    apply PyDictMore.Forall_values_set; [done|]. simpl.
    rewrite Forall_forall in Hall. apply Hall.
    by apply (PyDictMore.get_elem_of_values
                (MergePullRequestRequest.pull_request_id payload)).
  - destruct (reassign_reviewer_cases (rng e) payload s)
      as [[_ ->]|(pr & Hget & [[_ ->]|(old_user & Hold & [[_ ->]|(_ &
           [[_ ->]|(Hin & [[_ ->]|(new & Hnew & ->)])])])])]; try done.
    simpl. apply PyDictMore.Forall_values_set; [done|]. simpl.
    rewrite Forall_forall in Hall.
    destruct (Hall pr) as [Ha Hr].
    { by apply (PyDictMore.get_elem_of_values
                  (ReassignReviewerRequest.pull_request_id payload)). }
    split; [done|]. apply Forall_forall. intros r Hin'.
    apply elem_of_replace_reviewer in Hin' as [->|[Hold' _]].
    + by apply (reassign_candidate_known old_user
                  (ReassignReviewerRequest.old_user_id payload) pr).
    + rewrite Forall_forall in Hr. by apply Hr.
  - unfold get_user_reviews. by destruct (negb _).
Qed.

Lemma reachable_refs_known s : reachable s -> refs_known s.
Proof.
  induction 1 as [|e r s Hreach IH]; [constructor|].
  apply refs_known_handle; [by apply reachable_store_ok | done].
Qed.

Lemma reachable_run trace s : reachable s -> reachable (run trace s).
Proof.
  revert s. induction trace as [|[e r] trace IH]; intros s Hs; [done|].
  simpl. apply IH. by constructor.
Qed.

(** ** Teams *)

(** X1: [get_team] answers NOT_FOUND exactly when the name is not in
    [teams_exist]. For a registered name it answers with that name and the
    stored users whose [team_name] is the name, in the order of the store,
    each reduced to id, name and activity; the store is left as it was. *)
Theorem get_team_roster team_name s :
  (fails_with (get_team team_name s).1 NOT_FOUND <-> team_name ∉ teams_exist s)
  /\ (team_name ∈ teams_exist s ->
      exists members,
        get_team team_name s
        = (TeamBody {| Team.team_name := team_name; Team.members := members |}, s)
        /\ members
           = member_of_user <$> filter (fun u => User.team_name u = team_name)
                                  (PyDict.values (users_by_id s))
        /\ forall m,
             m ∈ members
             <-> exists u, u ∈ PyDict.values (users_by_id s)
                        /\ User.team_name u = team_name
                        /\ m = member_of_user u).
Proof.
  unfold get_team. case_bool_decide as Hin; simpl.
  - split; [split; [by intros (? & ? & ?)|done]|]. intros _.
    eexists. split; [reflexivity|].
    rewrite (foldl_append_filter
               (fun u => bool_decide (User.team_name u = team_name)) member_of_user).
    simpl.
    assert (Hfilter :
      filter (fun u => bool_decide (User.team_name u = team_name))
        (PyDict.values (users_by_id s))
      = filter (fun u => User.team_name u = team_name) (PyDict.values (users_by_id s))).
    { apply list_filter_iff. intros u. apply bool_decide_spec. }
    rewrite Hfilter. split; [done|].
    intros m. rewrite list_elem_of_fmap. split.
    + intros (u & -> & [Ht Hu]%list_elem_of_filter). by exists u.
    + intros (u & Hu & Ht & ->). exists u. split; [done|].
      by apply list_elem_of_filter.
  - split; [split; [done|intros _; by eexists _, _]|]. done.
Qed.

Lemma get_team_roster_witness :
  get_team "A" Scenario.s_open
  = (TeamBody Scenario.team_a, Scenario.s_open).
Proof.
  destruct (get_team_roster "A" Scenario.s_open) as [_ Hreg].
  destruct Hreg as (members & -> & -> & _).
  - apply (bool_decide_unpack _). vm_compute. exact I.
  - reflexivity.
Defined.

(** X2: [add_team] answers TEAM_EXISTS exactly when the name is registered.
    Otherwise it returns the payload, registers the name, keeps [prs_by_id],
    keeps the record of every user the payload does not name, and keeps the
    old keys of [users_by_id] in their order at the front. *)
Theorem add_team_registers team s :
  (fails_with (add_team team s).1 TEAM_EXISTS <-> Team.team_name team ∈ teams_exist s)
  /\ (Team.team_name team ∉ teams_exist s ->
      exists s',
        add_team team s = (TeamResponse team, s')
        /\ teams_exist s' = {[Team.team_name team]} ∪ teams_exist s
        /\ prs_by_id s' = prs_by_id s
        /\ (forall k, k ∉ TeamMember.user_id <$> Team.members team ->
                      PyDict.get k (users_by_id s') = PyDict.get k (users_by_id s))
        /\ PyDict.keys (users_by_id s) `prefix_of` PyDict.keys (users_by_id s')).
Proof.
  unfold add_team. case_bool_decide as Hin; simpl.
  - split; [split; [done|intros _; by eexists _, _]|]. done.
  - split; [split; [by intros (? & ? & ?)|done]|]. intros _.
    eexists. split; [reflexivity|]. simpl. split_and!; try done.
    + intros k Hk. by apply get_add_members_other.
    + apply keys_add_members_prefix.
Qed.

Lemma add_team_registers_witness :
  exists s',
    add_team Scenario2.team_c Scenario.s_open_b = (TeamResponse Scenario2.team_c, s')
    /\ PyDict.get "u1" (users_by_id s') = Some (User.mk "u1" "Ann" "A" true).
Proof.
  destruct (add_team_registers Scenario2.team_c Scenario.s_open_b) as [_ Hnew].
  destruct Hnew as (s' & Hout & _ & _ & Hother & _).
  - apply (bool_decide_unpack _). vm_compute. exact I.
  - exists s'. split; [done|]. rewrite Hother; [reflexivity|].
    apply (bool_decide_unpack _). vm_compute. exact I.
Defined.

(** X3: in a reachable store, after [add_team] has registered a new team,
    every id of the payload is a key of [users_by_id], and its record has
    that id, the new team and the name and activity of the last member of
    the payload with that id, whether the user was known (in whatever
    team) or not. *)
Theorem add_team_stores_members team s before member after :
  reachable s ->
  Team.team_name team ∉ teams_exist s ->
  Team.members team = before ++ member :: after ->
  TeamMember.user_id member ∉ TeamMember.user_id <$> after ->
  PyDict.get (TeamMember.user_id member) (users_by_id (add_team team s).2)
  = Some (user_of_member (Team.team_name team) member).
Proof.
  intros Hreach Hnew Hmem Hlast.
  destruct (reachable_store_ok s Hreach) as [Hu _].
  unfold add_team. rewrite bool_decide_false by done. simpl.
  rewrite Hmem. by apply get_add_members_last.
Qed.

Lemma add_team_stores_members_witness :
  PyDict.get "u2" (users_by_id Scenario.s_open_b) = Some (User.mk "u2" "Bob" "A" true)
  /\ PyDict.get "u2" (users_by_id Scenario2.s_team_c)
     = Some (User.mk "u2" "Rob" "C" false).
Proof.
  split; [reflexivity|].
  assert (Hreach : reachable Scenario.s_open_b) by (repeat constructor).
  apply (add_team_stores_members Scenario2.team_c Scenario.s_open_b
           [TeamMember.mk "u2" "Bob" true; TeamMember.mk "w1" "Hal" true]
           (TeamMember.mk "u2" "Rob" false) [] Hreach).
  - apply (bool_decide_unpack _). vm_compute. exact I.
  - reflexivity.
  - apply (bool_decide_unpack _). vm_compute. exact I.
Defined.

(** X4: whatever the store, a team cannot be registered twice: after
    [add_team] has been called with a name, any call with the same name
    answers TEAM_EXISTS and leaves the store as it is, whatever its
    members are. *)
Theorem add_team_twice_fails team team' s :
  Team.team_name team' = Team.team_name team ->
  fails_with (add_team team' (add_team team s).2).1 TEAM_EXISTS
  /\ (add_team team' (add_team team s).2).2 = (add_team team s).2.
Proof.
  intros Hname.
  assert (Hin : Team.team_name team' ∈ teams_exist (add_team team s).2).
  { rewrite Hname. unfold add_team. case_bool_decide as Hin; simpl; [done|].
    apply elem_of_union. left. by apply elem_of_singleton. }
  unfold add_team at 1 3. rewrite bool_decide_true by done. simpl.
  split; [by eexists _, _ | done].
Qed.

Lemma add_team_twice_fails_witness :
  fails_with
    (add_team {| Team.team_name := "A"; Team.members := [] |}
       (add_team Scenario.team_a initial).2).1 TEAM_EXISTS.
Proof.
  apply (add_team_twice_fails Scenario.team_a
           {| Team.team_name := "A"; Team.members := [] |} initial).
  reflexivity.
Defined.

Lemma member_split (members : list TeamMember.t) m :
  NoDup (TeamMember.user_id <$> members) -> m ∈ members ->
  exists before after,
    members = before ++ m :: after
    /\ TeamMember.user_id m ∉ TeamMember.user_id <$> after.
Proof.
  intros Hnd (before & after & ->)%list_elem_of_split.
  exists before, after. split; [done|].
  rewrite fmap_app in Hnd. apply NoDup_app in Hnd as (_ & _ & Hnd).
  csimpl in Hnd. by apply NoDup_cons in Hnd as [? _].
Qed.

Lemma member_of_user_of_member team_name m :
  member_of_user (user_of_member team_name m) = m.
Proof. by destruct m. Qed.

(** X5: in a reachable store, when a payload with distinct member ids has
    just been registered under a new name, [get_team] of that name returns
    the members of the payload, each as it was sent, possibly in another
    order (a member known before keeps its place in the store). *)
Theorem add_team_then_get_team team s :
  reachable s ->
  Team.team_name team ∉ teams_exist s ->
  NoDup (TeamMember.user_id <$> Team.members team) ->
  exists members,
    get_team (Team.team_name team) (add_team team s).2
    = (TeamBody {| Team.team_name := Team.team_name team; Team.members := members |},
       (add_team team s).2)
    /\ members ≡ₚ Team.members team.
Proof.
  intros Hreach Hnew Hnd.
  destruct (reachable_store_ok s Hreach) as [Hu _].
  pose proof (reachable_teams_registered s Hreach) as Hreg.
  set (name := Team.team_name team) in *.
  set (users' := foldl (add_member name) (users_by_id s) (Team.members team)).
  assert (Hs' : (add_team team s).2
                = {| users_by_id := users'; prs_by_id := prs_by_id s;
                     teams_exist := {[name]} ∪ teams_exist s |}).
  { unfold add_team. fold name. by rewrite bool_decide_false. }
  rewrite Hs'. clear Hs'.
  assert (Hok' : users_ok users') by (by apply add_members_users_ok).
  eexists. split.
  { unfold get_team. simpl. rewrite bool_decide_true; [reflexivity|].
    apply elem_of_union. left. by apply elem_of_singleton. }
  simpl.
  rewrite (foldl_append_filter
             (fun u => bool_decide (User.team_name u = name)) member_of_user).
  simpl. apply NoDup_Permutation.
  - apply (NoDup_fmap_1 TeamMember.user_id). rewrite <- list_fmap_compose.
    by apply (NoDup_user_ids (fun u => bool_decide (User.team_name u = name))).
  - by apply (NoDup_fmap_1 TeamMember.user_id).
  - intros m. rewrite list_elem_of_fmap. split.
    + intros (u & -> & [Ht Hin]%list_elem_of_filter).
      apply bool_decide_unpack in Ht.
      pose proof (users_ok_value_get _ _ Hok' Hin) as Hget.
      destruct (decide (User.user_id u ∈ TeamMember.user_id <$> Team.members team))
        as [Hid|Hid].
      * apply list_elem_of_fmap in Hid as (m & Hm & Hmem).
        destruct (member_split _ _ Hnd Hmem) as (before & after & Heq & Hlast).
        unfold users' in Hget. rewrite Hm, Heq in Hget.
        rewrite get_add_members_last in Hget by done.
        injection Hget as <-. by rewrite member_of_user_of_member.
      * unfold users' in Hget. rewrite get_add_members_other in Hget by done.
        apply PyDictMore.get_elem_of_values in Hget.
        unfold teams_registered in Hreg. rewrite Forall_forall in Hreg.
        destruct Hnew. rewrite <- Ht. by apply Hreg.
    + intros Hmem.
      destruct (member_split _ _ Hnd Hmem) as (before & after & Heq & Hlast).
      exists (user_of_member name m). split; [by rewrite member_of_user_of_member|].
      apply list_elem_of_filter. split; [by apply bool_decide_pack|].
      apply (PyDictMore.get_elem_of_values (TeamMember.user_id m)).
      unfold users'. rewrite Heq. by apply get_add_members_last.
Qed.

Lemma add_team_then_get_team_witness :
  exists members,
    get_team "B" Scenario.s_team_b
    = (TeamBody {| Team.team_name := "B"; Team.members := members |}, Scenario.s_team_b)
    /\ members ≡ₚ Team.members Scenario.team_b.
Proof.
  assert (Hreach : reachable Scenario.s_merged) by (repeat constructor).
  apply (add_team_then_get_team Scenario.team_b Scenario.s_merged Hreach).
  - apply (bool_decide_unpack _). vm_compute. exact I.
  - apply (bool_decide_unpack _). vm_compute. exact I.
Defined.

(** ** Creating a pull request, continued *)

(** X6: in a reachable store the team of a stored user is always
    registered, so the "author team not found" answer never occurs: create
    answers PR_EXISTS exactly when the id is taken, NOT_FOUND exactly when
    the id is new and the author is unknown, and succeeds exactly when the
    id is new and the author is known. *)
Theorem create_outcome_reachable g now payload s :
  reachable s ->
  let out := (create_pull_request g now payload s).1 in
  let taken :=
    PyDict.contains (CreatePullRequestRequest.pull_request_id payload) (prs_by_id s) in
  let author := PyDict.get (CreatePullRequestRequest.author_id payload) (users_by_id s) in
  (fails_with out PR_EXISTS <-> taken = true)
  /\ (fails_with out NOT_FOUND <-> taken = false /\ author = None)
  /\ ((exists pr, out = PullRequestResponse pr) <-> taken = false /\ is_Some author)
  /\ out <> JSONResponse 404 NOT_FOUND "author team not found".
Proof.
  intros Hreach out taken author. subst out taken author.
  pose proof (reachable_teams_registered s Hreach) as Hreg.
  assert (Hcode : forall st c m c', fails_with (JSONResponse st c m) c' <-> c = c').
  { intros st c m c'. split; [by intros (? & ? & [= _ -> _])|intros ->; by eexists _, _]. }
  assert (Hok : forall p c, ~ fails_with (PullRequestResponse p) c).
  { by intros p c (? & ? & ?). }
  destruct (create_pull_request_cases g now payload s)
    as [[Hin ->]|[Hnew [[Ha ->]|(author & Ha & [[Ht ->]|(Ht & pr0 & Hpr & ->)])]]];
    simpl.
  - rewrite !Hcode, Hin. split_and!; try done.
    + split; [done|]. by intros [? _].
    + split; [by intros [? ?]|]. by intros [? _].
  - rewrite !Hcode, Hnew, Ha. split_and!; try done.
    split; [by intros [? ?]|]. by intros [_ [? ?]].
  - destruct Ht. unfold teams_registered in Hreg. rewrite Forall_forall in Hreg.
    apply Hreg. by apply (PyDictMore.get_elem_of_values
                            (CreatePullRequestRequest.author_id payload)).
  - rewrite Hnew, Ha. split_and!; try done.
    + split; [by intros ?%Hok|done].
    + split; [by intros ?%Hok|]. by intros [_ ?].
    + split; [done|]. intros _. by eexists.
Qed.

Lemma create_outcome_reachable_witness :
  fails_with
    (create_pull_request [] 8%Z (CreatePullRequestRequest.mk "pr9" "z" "nobody")
       Scenario.s_open).1 NOT_FOUND.
Proof.
  assert (Hreach : reachable Scenario.s_open) by (repeat constructor).
  destruct (create_outcome_reachable [] 8%Z
              (CreatePullRequestRequest.mk "pr9" "z" "nobody") Scenario.s_open Hreach)
    as (_ & Hnf & _).
  apply Hnf. split; reflexivity.
Defined.

(** X7: a successful create stores the returned pull request under the id
    of the request, as the last key of [prs_by_id]; it carries the id and
    the name of the request, status OPEN, the clock reading as [createdAt]
    and no [mergedAt]. Every other pull request, the users and the teams
    are left as they were. *)
Theorem create_success_effect g now payload s pr s' :
  create_pull_request g now payload s = (PullRequestResponse pr, s') ->
  let pr_id := CreatePullRequestRequest.pull_request_id payload in
  PullRequest.pull_request_id pr = pr_id
  /\ PullRequest.pull_request_name pr = CreatePullRequestRequest.pull_request_name payload
  /\ PullRequest.status pr = OPEN
  /\ PullRequest.createdAt pr = Some now
  /\ PullRequest.mergedAt pr = None
  /\ PyDict.get pr_id (prs_by_id s) = None
  /\ PyDict.get pr_id (prs_by_id s') = Some pr
  /\ PyDict.keys (prs_by_id s') = PyDict.keys (prs_by_id s) ++ [pr_id]
  /\ (forall k, k <> pr_id -> PyDict.get k (prs_by_id s') = PyDict.get k (prs_by_id s))
  /\ users_by_id s' = users_by_id s
  /\ teams_exist s' = teams_exist s.
Proof.
  intros Hout pr_id. subst pr_id.
  destruct (create_pull_request_cases g now payload s)
    as [[Hin Hn]|[Hnew [[Ha Hn]|(author & Ha & [[Ht Hn]|(Ht & pr0 & Hpr & Hn)])]]];
    rewrite Hn in Hout; try discriminate.
  injection Hout as <- <-. subst pr0. simpl. split_and!; try done.
  - by apply PyDictFacts.contains_false.
  - apply PyDictFacts.get_set_eq.
  - by rewrite PyDictFacts.keys_set, Hnew.
  - intros k Hk. by apply PyDictFacts.get_set_ne.
Qed.

Lemma create_success_effect_witness :
  PyDict.keys (prs_by_id Scenario.s_open_b) = ["pr1"; "pr2"]
  /\ PyDict.get "pr1" (prs_by_id Scenario.s_open_b)
     = PyDict.get "pr1" (prs_by_id Scenario.s_team_b).
Proof.
  destruct (create_success_effect [] 7%Z Scenario.create_pr2 Scenario.s_team_b
              (PullRequest.mk "pr2" "y" "v1" OPEN ["v3"; "v4"] (Some 7%Z) None)
              Scenario.s_open_b eq_refl)
    as (_ & _ & _ & _ & _ & _ & _ & Hkeys & Hother & _).
  split; [by rewrite Hkeys|]. by apply Hother.
Defined.

(** ** What holds in every reachable store *)

(** X8: in every reachable store each user is stored under its own
    [user_id] and each pull request under its own [pull_request_id], and
    the reviewers of every stored pull request are at most two and
    distinct. *)
Theorem reachable_keys_and_reviewers s :
  reachable s ->
  (forall k u, PyDict.get k (users_by_id s) = Some u -> User.user_id u = k)
  /\ (forall k pr, PyDict.get k (prs_by_id s) = Some pr ->
                   PullRequest.pull_request_id pr = k
                   /\ NoDup (PullRequest.assigned_reviewers pr)
                   /\ length (PullRequest.assigned_reviewers pr) <= 2).
Proof.
  intros [Hu Hp]%reachable_store_ok. split.
  - intros k u. by apply users_ok_get.
  - intros k pr Hget. by destruct (prs_ok_get _ _ _ Hp Hget) as [? [? ?]].
Qed.

Lemma reachable_keys_and_reviewers_witness :
  reachable Scenario2.s_team_c
  /\ NoDup ["v3"; "v4"] /\ length ["v3"; "v4"] <= 2.
Proof.
  assert (Hreach : reachable Scenario2.s_team_c) by (repeat constructor).
  split; [done|].
  destruct (reachable_keys_and_reviewers Scenario2.s_team_c Hreach) as [_ Hprs].
  destruct (Hprs "pr2" (PullRequest.mk "pr2" "y" "v1" OPEN ["v3"; "v4"] (Some 7%Z) None)
              eq_refl) as (_ & Hnd & Hlen).
  by split.
Defined.

(** X9: in every reachable store the author and every reviewer of every
    stored pull request is a key of [users_by_id] (users are never removed,
    and reviewers are only taken from the stored users). *)
Theorem reachable_references_known s :
  reachable s ->
  forall k pr, PyDict.get k (prs_by_id s) = Some pr ->
    is_Some (PyDict.get (PullRequest.author_id pr) (users_by_id s))
    /\ forall r, r ∈ PullRequest.assigned_reviewers pr ->
                 is_Some (PyDict.get r (users_by_id s)).
Proof.
  intros Hrefs%reachable_refs_known k pr Hget%PyDictMore.get_elem_of_values.
  unfold refs_known in Hrefs. rewrite Forall_forall in Hrefs.
  destruct (Hrefs pr Hget) as [Ha Hr]. split; [done|].
  by rewrite Forall_forall in Hr.
Qed.

Lemma reachable_references_known_witness :
  is_Some (PyDict.get "v1" (users_by_id Scenario2.s_team_c))
  /\ is_Some (PyDict.get "v4" (users_by_id Scenario2.s_team_c)).
Proof.
  assert (Hreach : reachable Scenario2.s_team_c) by (repeat constructor).
  destruct (reachable_references_known Scenario2.s_team_c Hreach "pr2"
              (PullRequest.mk "pr2" "y" "v1" OPEN ["v3"; "v4"] (Some 7%Z) None) eq_refl)
    as [Ha Hr].
  split; [done|]. apply Hr. right. left.
Defined.

(** ** What no request undoes *)

(** One request: a stored pull request stays stored under its key with its
    id, name, author and creation time, and stays as it is once MERGED. *)
Lemma handle_keeps_pull_request e r s k pr :
  PyDict.get k (prs_by_id s) = Some pr ->
  exists pr',
    PyDict.get k (prs_by_id (handle e r s).2) = Some pr'
    /\ PullRequest.pull_request_id pr' = PullRequest.pull_request_id pr
    /\ PullRequest.pull_request_name pr' = PullRequest.pull_request_name pr
    /\ PullRequest.author_id pr' = PullRequest.author_id pr
    /\ PullRequest.createdAt pr' = PullRequest.createdAt pr
    /\ (PullRequest.status pr = MERGED -> pr' = pr).
Proof.
  intros Hget.
  assert (Hsame : exists pr',
    PyDict.get k (prs_by_id s) = Some pr'
    /\ PullRequest.pull_request_id pr' = PullRequest.pull_request_id pr
    /\ PullRequest.pull_request_name pr' = PullRequest.pull_request_name pr
    /\ PullRequest.author_id pr' = PullRequest.author_id pr
    /\ PullRequest.createdAt pr' = PullRequest.createdAt pr
    /\ (PullRequest.status pr = MERGED -> pr' = pr)) by (by exists pr).
  destruct r as [team|tn|payload|payload|payload|payload|uid]; simpl.
  - unfold add_team. by case_bool_decide.
  - unfold get_team. by destruct (negb _).
  - unfold set_is_active. by destruct (PyDict.get _ (users_by_id s)).
  - destruct (create_pull_request_cases (rng e) (utcnow e) payload s)
      as [[_ ->]|[Hnew [[_ ->]|(author & Ha & [[_ ->]|(_ & pr0 & Hpr & ->)])]]];
      try done.
    simpl. apply PyDictFacts.contains_false in Hnew.
    rewrite PyDictFacts.get_set_ne; [done|]. intros Heq. rewrite Heq in Hnew. congruence.
  - unfold merge_pull_request.
    destruct (PyDict.get (MergePullRequestRequest.pull_request_id payload) (prs_by_id s))
      as [pr0|] eqn:Hget0; [|done].
    case_bool_decide as Hst; simpl; [done|].
    rewrite PyDictMore.get_set. case_decide as Hk; [|done].
    subst k. rewrite Hget in Hget0. injection Hget0 as <-.
    eexists. split; [done|]. by split_and!.
  - destruct (reassign_reviewer_cases (rng e) payload s)
      as [[_ ->]|(pr0 & Hget0 & [[_ ->]|(old_user & Hold & [[_ ->]|(Hst &
           [[_ ->]|(Hin & [[_ ->]|(new & Hnew & ->)])])])])]; try done.
    simpl. rewrite PyDictMore.get_set. case_decide as Hk; [|done].
    subst k. rewrite Hget in Hget0. injection Hget0 as <-.
    eexists. split; [done|]. by split_and!.
  - unfold get_user_reviews. by destruct (negb _).
Qed.

(** One request: the keys of both dicts stay, in their order, at the front,
    and the registered names stay registered. *)
Lemma handle_grows e r s :
  PyDict.keys (users_by_id s) `prefix_of` PyDict.keys (users_by_id (handle e r s).2)
  /\ PyDict.keys (prs_by_id s) `prefix_of` PyDict.keys (prs_by_id (handle e r s).2)
  /\ teams_exist s ⊆ teams_exist (handle e r s).2.
Proof.
  destruct r as [team|tn|payload|payload|payload|payload|uid]; simpl.
  - unfold add_team. case_bool_decide; simpl; [done|]. split_and!; [|done|].
    + apply keys_add_members_prefix.
    + apply union_subseteq_r.
  - unfold get_team. by destruct (negb _).
  - unfold set_is_active. destruct (PyDict.get _ (users_by_id s)); simpl; [|done].
    split_and!; [|done|done]. apply PyDictMore.keys_set_prefix.
  - destruct (create_pull_request_cases (rng e) (utcnow e) payload s)
      as [[_ ->]|[Hnew [[_ ->]|(author & Ha & [[_ ->]|(_ & pr0 & Hpr & ->)])]]];
      try done.
    simpl. split_and!; [done| |done]. apply PyDictMore.keys_set_prefix.
  - unfold merge_pull_request. destruct (PyDict.get _ _); [|done].
    case_bool_decide; simpl; [done|].
    split_and!; [done| |done]. apply PyDictMore.keys_set_prefix.
  - destruct (reassign_reviewer_cases (rng e) payload s)
      as [[_ ->]|(pr0 & Hget0 & [[_ ->]|(old_user & Hold & [[_ ->]|(Hst &
           [[_ ->]|(Hin & [[_ ->]|(new & Hnew & ->)])])])])]; try done.
    simpl. split_and!; [done| |done]. apply PyDictMore.keys_set_prefix.
  - unfold get_user_reviews. by destruct (negb _).
Qed.

(** X10: MERGED is final. Whatever the store, a stored pull request that is
    MERGED is still stored under its key, equal in every attribute, after
    any sequence of requests: no merge, reassignment or create changes it. *)
Theorem merged_pull_request_is_frozen trace s k pr :
  PyDict.get k (prs_by_id s) = Some pr ->
  PullRequest.status pr = MERGED ->
  PyDict.get k (prs_by_id (run trace s)) = Some pr.
Proof.
  revert s. induction trace as [|[e r] trace IH]; intros s Hget Hst; [done|].
  simpl. apply IH; [|done].
  destruct (handle_keeps_pull_request e r s k pr Hget) as (pr' & Hget' & _ & _ & _ & _ & Heq).
  by rewrite Hget', (Heq Hst).
Qed.

Lemma merged_pull_request_is_frozen_witness :
  PyDict.get "pr1"
    (prs_by_id
       (run [ (mkEnv [] 20%Z, PostPullRequestMerge Scenario.merge_pr1);
              (mkEnv [] 21%Z, PostPullRequestReassign Scenario.reassign_pr1_u2);
              (mkEnv [] 22%Z, PostPullRequestCreate Scenario.create_pr1) ]
          Scenario.s_merged))
  = Some (PullRequest.mk "pr1" "x" "u1" MERGED ["u2"] (Some 7%Z) (Some 9%Z)).
Proof.
  apply (merged_pull_request_is_frozen _ Scenario.s_merged "pr1"); reflexivity.
Defined.

(** X11: nothing is ever removed. After any sequence of requests the keys
    of [users_by_id] and of [prs_by_id] are still there, in the same order
    at the front of the new keys, and every registered team name is still
    registered. *)
Theorem run_only_grows trace s :
  PyDict.keys (users_by_id s) `prefix_of` PyDict.keys (users_by_id (run trace s))
  /\ PyDict.keys (prs_by_id s) `prefix_of` PyDict.keys (prs_by_id (run trace s))
  /\ teams_exist s ⊆ teams_exist (run trace s).
Proof.
  revert s. induction trace as [|[e r] trace IH]; intros s; [done|].
  simpl. destruct (handle_grows e r s) as (Hu & Hp & Ht).
  destruct (IH (handle e r s).2) as (Hu' & Hp' & Ht').
  split_and!; by etrans.
Qed.

(** X12: the id, the name, the author and the creation time of a stored
    pull request never change: after any sequence of requests the pull
    request stored under the same key has the same four attributes. *)
Theorem pull_request_identity_is_kept trace s k pr :
  PyDict.get k (prs_by_id s) = Some pr ->
  exists pr',
    PyDict.get k (prs_by_id (run trace s)) = Some pr'
    /\ PullRequest.pull_request_id pr' = PullRequest.pull_request_id pr
    /\ PullRequest.pull_request_name pr' = PullRequest.pull_request_name pr
    /\ PullRequest.author_id pr' = PullRequest.author_id pr
    /\ PullRequest.createdAt pr' = PullRequest.createdAt pr.
Proof.
  revert s pr. induction trace as [|[e r] trace IH]; intros s pr Hget.
  - by exists pr.
  - simpl.
    destruct (handle_keeps_pull_request e r s k pr Hget)
      as (pr1 & Hget1 & Hid & Hname & Hauthor & Hat & _).
    destruct (IH _ _ Hget1) as (pr' & Hget' & Hid' & Hname' & Hauthor' & Hat').
    exists pr'. split_and!; [done|congruence..].
Qed.

Lemma pull_request_identity_is_kept_witness :
  exists pr',
    PyDict.get "pr2"
      (prs_by_id
         (run [ (mkEnv [1] 20%Z, PostPullRequestReassign Scenario.reassign_pr2_v3);
                (mkEnv [] 21%Z, PostPullRequestMerge (MergePullRequestRequest.mk "pr2")) ]
            Scenario.s_open_b))
    = Some pr'
    /\ PullRequest.author_id pr' = "v1"
    /\ PullRequest.createdAt pr' = Some 7%Z.
Proof.
  destruct (pull_request_identity_is_kept
              [ (mkEnv [1] 20%Z, PostPullRequestReassign Scenario.reassign_pr2_v3);
                (mkEnv [] 21%Z, PostPullRequestMerge (MergePullRequestRequest.mk "pr2")) ]
              Scenario.s_open_b "pr2"
              (PullRequest.mk "pr2" "y" "v1" OPEN ["v3"; "v4"] (Some 7%Z) None) eq_refl)
    as (pr' & Hget & _ & _ & Hauthor & Hat).
  by exists pr'.
Defined.

(** ** Merge, continued *)

(** X13: [merge_pull_request] answers NOT_FOUND exactly when the id is no
    key of [prs_by_id]; whatever it answers, it leaves the users, the teams,
    the keys of [prs_by_id] and every other pull request as they were. *)
Theorem merge_outcome_and_frame now payload s :
  let pr_id := MergePullRequestRequest.pull_request_id payload in
  let s' := (merge_pull_request now payload s).2 in
  (fails_with (merge_pull_request now payload s).1 NOT_FOUND
   <-> PyDict.get pr_id (prs_by_id s) = None)
  /\ users_by_id s' = users_by_id s
  /\ teams_exist s' = teams_exist s
  /\ PyDict.keys (prs_by_id s') = PyDict.keys (prs_by_id s)
  /\ (forall k, k <> pr_id -> PyDict.get k (prs_by_id s') = PyDict.get k (prs_by_id s)).
Proof.
  intros pr_id s'. subst pr_id s'. unfold merge_pull_request.
  destruct (PyDict.get (MergePullRequestRequest.pull_request_id payload) (prs_by_id s))
    as [pr|] eqn:Hget.
  - case_bool_decide as Hst; simpl.
    + split_and!; try done. split; [by intros (? & ? & ?)|done].
    + split_and!; try done.
      * split; [by intros (? & ? & ?)|done].
      * rewrite PyDictFacts.keys_set. unfold PyDict.contains. by rewrite Hget.
      * intros k Hk. by apply PyDictFacts.get_set_ne.
  - simpl. split_and!; try done. split; [done|]. intros _. by eexists _, _.
Qed.

(** X14: once a pull request has been merged, its reviewers cannot be
    reassigned: whatever the store, after a merge of a stored pull request a
    reassignment on the same id is an error that leaves the store alone:
    PR_MERGED when the old reviewer is a known user, NOT_FOUND when not. *)
Theorem merge_then_reassign_is_rejected now g merge_payload payload s :
  ReassignReviewerRequest.pull_request_id payload
  = MergePullRequestRequest.pull_request_id merge_payload ->
  is_Some (PyDict.get (MergePullRequestRequest.pull_request_id merge_payload)
             (prs_by_id s)) ->
  let s1 := (merge_pull_request now merge_payload s).2 in
  let old_user := PyDict.get (ReassignReviewerRequest.old_user_id payload) (users_by_id s) in
  (reassign_reviewer g payload s1).2 = s1
  /\ (is_Some old_user -> fails_with (reassign_reviewer g payload s1).1 PR_MERGED)
  /\ (old_user = None -> fails_with (reassign_reviewer g payload s1).1 NOT_FOUND).
Proof.
  intros Hid [pr Hget] s1 old_user. subst old_user.
  assert (Hs1 : exists pr1,
    PyDict.get (ReassignReviewerRequest.pull_request_id payload) (prs_by_id s1) = Some pr1
    /\ PullRequest.status pr1 = MERGED /\ users_by_id s1 = users_by_id s).
  { subst s1. rewrite Hid. unfold merge_pull_request. rewrite Hget.
    case_bool_decide as Hst; simpl.
    - by exists pr.
    - eexists. split; [apply PyDictFacts.get_set_eq|done]. }
  destruct Hs1 as (pr1 & Hget1 & Hst1 & Husers). clearbody s1.
  unfold reassign_reviewer. rewrite Hget1, Husers.
  destruct (PyDict.get (ReassignReviewerRequest.old_user_id payload) (users_by_id s))
    as [old_user|]; simpl.
  - rewrite bool_decide_true by done. simpl. split_and!; [done| |done].
    intros _. by eexists _, _.
  - split_and!; [done|by intros [? ?]|]. intros _. by eexists _, _.
Qed.

Lemma merge_then_reassign_is_rejected_witness :
  fails_with
    (reassign_reviewer [] Scenario.reassign_pr1_u2
       (merge_pull_request 9%Z Scenario.merge_pr1 Scenario.s_open).2).1 PR_MERGED.
Proof.
  destruct (merge_then_reassign_is_rejected 9%Z [] Scenario.merge_pr1
              Scenario.reassign_pr1_u2 Scenario.s_open eq_refl)
    as (_ & Hknown & _).
  - by eexists.
  - apply Hknown. by eexists.
Defined.

(** ** Activity of a user, continued *)

(** X15: for one user the last [set_is_active] decides: calling it after
    another call for the same id gives the answer and the store that the
    later call alone would give; in particular repeating a call changes
    nothing. *)
Theorem set_is_active_last_call_wins first last s :
  SetIsActiveRequest.user_id last = SetIsActiveRequest.user_id first ->
  set_is_active last (set_is_active first s).2 = set_is_active last s.
Proof.
  intros Hid. unfold set_is_active. rewrite Hid.
  destruct (PyDict.get (SetIsActiveRequest.user_id first) (users_by_id s))
    as [user|] eqn:Hget; simpl.
  - rewrite PyDictFacts.get_set_eq. simpl. by rewrite PyDictMore.set_set.
  - by rewrite Hget.
Qed.

Lemma set_is_active_last_call_wins_witness :
  set_is_active (SetIsActiveRequest.mk "u2" true)
    (set_is_active (SetIsActiveRequest.mk "u2" false) Scenario.s_open).2
  = (UserResponse (User.mk "u2" "Bob" "A" true), Scenario.s_open).
Proof.
  rewrite (set_is_active_last_call_wins (SetIsActiveRequest.mk "u2" false)
             (SetIsActiveRequest.mk "u2" true) Scenario.s_open eq_refl).
  reflexivity.
Defined.

(** X16: in a reachable store, a user that has just been deactivated is not
    selected: after [set_is_active] with [false] for an id (whether it was
    known or not), no create assigns that id as a reviewer and no
    reassignment returns it as the replacement. *)
Theorem deactivated_user_is_not_selected user_id s :
  reachable s ->
  let s1 := (set_is_active (SetIsActiveRequest.mk user_id false) s).2 in
  (forall g now payload pr s',
     create_pull_request g now payload s1 = (PullRequestResponse pr, s') ->
     user_id ∉ PullRequest.assigned_reviewers pr)
  /\ (forall g payload pr replaced_by s',
        reassign_reviewer g payload s1 = (ReassignReviewerResponse pr replaced_by, s') ->
        replaced_by <> user_id).
Proof.
  intros Hreach s1.
  assert (Hreach1 : reachable s1).
  { apply (reachable_handle (mkEnv [] 0%Z)
             (PostUsersSetIsActive (SetIsActiveRequest.mk user_id false)) s Hreach). }
  destruct (reachable_store_ok s1 Hreach1) as [Hu1 _].
  assert (Hoff : forall u, u ∈ PyDict.values (users_by_id s1) ->
                           User.user_id u = user_id -> User.is_active u = false).
  { intros u Hu Hid. pose proof (users_ok_value_get _ _ Hu1 Hu) as Hget.
    rewrite Hid in Hget. subst s1. unfold set_is_active in Hget. simpl in Hget.
    destruct (PyDict.get user_id (users_by_id s)) as [user|] eqn:Hs; simpl in Hget.
    - rewrite PyDictFacts.get_set_eq in Hget. by injection Hget as <-.
    - congruence. }
  clearbody s1. split.
  - intros g now payload pr s' Hout Hin.
    destruct (create_pull_request_cases g now payload s1)
      as [[_ Hn]|[_ [[_ Hn]|(author & Ha & [[_ Hn]|(_ & pr0 & Hpr & Hn)])]]];
      rewrite Hn in Hout; try discriminate.
    injection Hout as <- <-. subst pr0. simpl in Hin.
    apply (picked_reviewers (create_candidates author (users_by_id s1)) g) in Hin.
    apply elem_of_create_candidates in Hin as (u & Hu & (_ & _ & Hact) & Hid).
    rewrite (Hoff u Hu Hid) in Hact. discriminate.
  - intros g payload pr replaced_by s' Hout ->.
    destruct (reassign_reviewer_cases g payload s1)
      as [[_ Hn]|(pr0 & Hget0 & [[_ Hn]|(old_user & Hold & [[_ Hn]|(Hst &
           [[_ Hn]|(Hin & [[_ Hn]|(new & Hnew & Hn)])])])])];
      rewrite Hn in Hout; try discriminate.
    injection Hout as <- <- <-.
    apply elem_of_reassign_candidates in Hnew as (u & Hu & (Hact & _) & Hid).
    rewrite (Hoff u Hu Hid) in Hact. discriminate.
Qed.

Lemma deactivated_user_is_not_selected_witness :
  (create_pull_request [] 8%Z (CreatePullRequestRequest.mk "pr3" "w" "u1")
     (set_is_active (SetIsActiveRequest.mk "u2" false) Scenario.s_open).2).1
  = PullRequestResponse (PullRequest.mk "pr3" "w" "u1" OPEN [] (Some 8%Z) None)
  /\ ("u2" ∉ @nil string).
Proof.
  split; [reflexivity|].
  assert (Hreach : reachable Scenario.s_open) by (repeat constructor).
  destruct (deactivated_user_is_not_selected "u2" Scenario.s_open Hreach) as [Hcreate _].
  apply (Hcreate [] 8%Z (CreatePullRequestRequest.mk "pr3" "w" "u1")
           (PullRequest.mk "pr3" "w" "u1" OPEN [] (Some 8%Z) None) _ eq_refl).
Defined.

(** ** Reassigning, continued *)

(** X17: in a reachable store the replacement that a successful
    reassignment returns is a stored user who is active, is in the team the
    old reviewer has now, is not the old reviewer and was not a reviewer of
    the pull request. The reassignment changes nothing but the reviewers of
    that pull request: its status and [mergedAt], the other pull requests,
    the keys of [prs_by_id], the users and the teams stay. *)
Theorem reassign_picks_active_teammate g payload s pr pr' replaced_by s' :
  reachable s ->
  PyDict.get (ReassignReviewerRequest.pull_request_id payload) (prs_by_id s) = Some pr ->
  reassign_reviewer g payload s = (ReassignReviewerResponse pr' replaced_by, s') ->
  let pr_id := ReassignReviewerRequest.pull_request_id payload in
  let old_user_id := ReassignReviewerRequest.old_user_id payload in
  (exists old_user u,
      PyDict.get old_user_id (users_by_id s) = Some old_user
      /\ PyDict.get replaced_by (users_by_id s) = Some u
      /\ User.is_active u = true
      /\ User.team_name u = User.team_name old_user)
  /\ replaced_by <> old_user_id
  /\ (replaced_by ∉ PullRequest.assigned_reviewers pr)
  /\ PullRequest.status pr' = PullRequest.status pr
  /\ PullRequest.mergedAt pr' = PullRequest.mergedAt pr
  /\ users_by_id s' = users_by_id s
  /\ teams_exist s' = teams_exist s
  /\ PyDict.keys (prs_by_id s') = PyDict.keys (prs_by_id s)
  /\ (forall k, k <> pr_id -> PyDict.get k (prs_by_id s') = PyDict.get k (prs_by_id s)).
Proof.
  intros Hreach Hget Hout pr_id old_user_id. subst pr_id old_user_id.
  destruct (reachable_store_ok s Hreach) as [Hu _].
  destruct (reassign_reviewer_cases g payload s)
    as [[_ Hn]|(pr0 & Hget0 & [[_ Hn]|(old_user & Hold & [[_ Hn]|(Hst &
         [[_ Hn]|(Hin & [[_ Hn]|(new & Hnew & Hn)])])])])];
    rewrite Hn in Hout; try discriminate.
  rewrite Hget in Hget0. injection Hget0 as <-.
  injection Hout as <- <- <-. simpl.
  apply elem_of_reassign_candidates in Hnew as (u & Hin' & (Hact & Ht & Hne & Hnotin) & <-).
  split_and!; try done.
  - exists old_user, u. split_and!; try done. by apply users_ok_value_get.
  - rewrite PyDictFacts.keys_set. unfold PyDict.contains. by rewrite Hget.
  - intros k Hk. by apply PyDictFacts.get_set_ne.
Qed.

Lemma reassign_picks_active_teammate_witness :
  PyDict.get "v2" (users_by_id Scenario.s_open_b) = Some (User.mk "v2" "Eve" "B" true)
  /\ "v2" <> "v3"
  /\ ("v2" ∉ ["v3"; "v4"]).
Proof.
  split; [reflexivity|].
  assert (Hreach : reachable Scenario.s_open_b) by (repeat constructor).
  destruct (reassign_picks_active_teammate [1] Scenario.reassign_pr2_v3 Scenario.s_open_b
              (PullRequest.mk "pr2" "y" "v1" OPEN ["v3"; "v4"] (Some 7%Z) None)
              (PullRequest.mk "pr2" "y" "v1" OPEN ["v2"; "v4"] (Some 7%Z) None)
              "v2" _ Hreach eq_refl eq_refl)
    as (_ & Hne & Hnotin & _).
  by split.
Defined.

(** ** Reviews after an assignment *)

Lemma stored_pull_request_is_listed user_id s k pr :
  is_Some (PyDict.get user_id (users_by_id s)) ->
  PyDict.get k (prs_by_id s) = Some pr ->
  user_id ∈ PullRequest.assigned_reviewers pr ->
  exists shorts,
    get_user_reviews user_id s = (UserReviewsResponse user_id shorts, s)
    /\ short pr ∈ shorts.
Proof.
  intros [u Hu] Hget Hin. unfold get_user_reviews, PyDict.contains. rewrite Hu. simpl.
  eexists. split; [reflexivity|].
  rewrite (foldl_append_filter
             (fun pr => bool_decide (user_id ∈ PullRequest.assigned_reviewers pr)) short).
  simpl. apply list_elem_of_fmap. exists pr. split; [done|].
  apply list_elem_of_filter. split; [by apply bool_decide_pack|].
  by apply (PyDictMore.get_elem_of_values k).
Qed.

(** X18: in a reachable store, after a successful create every reviewer
    that was assigned finds the new pull request in the answer of
    [get_user_reviews], which is no error for any of them. *)
Theorem created_pull_request_is_listed g now payload s pr s' reviewer :
  reachable s ->
  create_pull_request g now payload s = (PullRequestResponse pr, s') ->
  reviewer ∈ PullRequest.assigned_reviewers pr ->
  exists shorts,
    get_user_reviews reviewer s' = (UserReviewsResponse reviewer shorts, s')
    /\ short pr ∈ shorts.
Proof.
  intros Hreach Hout Hin.
  destruct (reachable_store_ok s Hreach) as [Hu _].
  destruct (create_pull_request_cases g now payload s)
    as [[_ Hn]|[_ [[_ Hn]|(author & Ha & [[_ Hn]|(_ & pr0 & Hpr & Hn)])]]];
    rewrite Hn in Hout; try discriminate.
  injection Hout as <- <-.
  apply (stored_pull_request_is_listed reviewer _
           (CreatePullRequestRequest.pull_request_id payload)); simpl.
  - subst pr0. simpl in Hin.
    apply (picked_reviewers (create_candidates author (users_by_id s)) g) in Hin.
    by apply (create_candidate_known author).
  - apply PyDictFacts.get_set_eq.
  - done.
Qed.

Lemma created_pull_request_is_listed_witness :
  exists shorts,
    get_user_reviews "v4" Scenario.s_open_b = (UserReviewsResponse "v4" shorts, Scenario.s_open_b)
    /\ PullRequestShort.mk "pr2" "y" "v1" OPEN ∈ shorts.
Proof.
  assert (Hreach : reachable Scenario.s_team_b) by (repeat constructor).
  apply (created_pull_request_is_listed [] 7%Z Scenario.create_pr2 Scenario.s_team_b
           (PullRequest.mk "pr2" "y" "v1" OPEN ["v3"; "v4"] (Some 7%Z) None)
           Scenario.s_open_b "v4" Hreach eq_refl).
  right. left.
Defined.

(** X19: in a reachable store, after a successful reassignment the
    replacement finds the pull request in the answer of
    [get_user_reviews], and the answer for the old reviewer, if the old
    reviewer still gets one, has no entry with the id of that pull
    request. *)
Theorem reassigned_pull_request_is_listed g payload s pr' replaced_by s' :
  reachable s ->
  reassign_reviewer g payload s = (ReassignReviewerResponse pr' replaced_by, s') ->
  (exists shorts,
      get_user_reviews replaced_by s' = (UserReviewsResponse replaced_by shorts, s')
      /\ short pr' ∈ shorts)
  /\ (forall shorts x,
        (get_user_reviews (ReassignReviewerRequest.old_user_id payload) s').1
        = UserReviewsResponse (ReassignReviewerRequest.old_user_id payload) shorts ->
        x ∈ shorts ->
        PullRequestShort.pull_request_id x
        <> ReassignReviewerRequest.pull_request_id payload).
Proof.
  intros Hreach Hout.
  assert (Hreach' : reachable s').
  { replace s' with (handle (mkEnv g 0%Z) (PostPullRequestReassign payload) s).2
      by (simpl; by rewrite Hout).
    by constructor. }
  destruct (reachable_store_ok s Hreach) as [Hu _].
  destruct (reachable_store_ok s' Hreach') as [_ [Hnd' Hall']].
  destruct (reassign_reviewer_cases g payload s)
    as [[_ Hn]|(pr0 & Hget0 & [[_ Hn]|(old_user & Hold & [[_ Hn]|(Hst &
         [[_ Hn]|(Hin & [[_ Hn]|(new & Hnew & Hn)])])])])];
    rewrite Hn in Hout; try discriminate.
  injection Hout as <- <- <-. simpl in *.
  pose proof Hnew as (u & _ & (_ & _ & Hne & _) & Hid)%elem_of_reassign_candidates.
  split.
  - apply (stored_pull_request_is_listed new _
             (ReassignReviewerRequest.pull_request_id payload)); simpl.
    + by apply (reassign_candidate_known old_user
                  (ReassignReviewerRequest.old_user_id payload) pr0).
    + apply PyDictFacts.get_set_eq.
    + by apply replace_reviewer_new_present.
  - intros shorts x Hrev Hx Hsame.
    unfold get_user_reviews in Hrev. simpl in Hrev.
    destruct (negb _); [discriminate|]. simpl in Hrev. injection Hrev as <-.
    rewrite (foldl_append_filter
               (fun pr => bool_decide (ReassignReviewerRequest.old_user_id payload
                                       ∈ PullRequest.assigned_reviewers pr)) short) in Hx.
    simpl in Hx.
    apply list_elem_of_fmap in Hx as (p & -> & [Hin' Hp]%list_elem_of_filter).
    apply bool_decide_unpack in Hin'. simpl in Hsame.
    apply PyDictFacts.elem_of_values in Hp as [k Hp].
    rewrite Forall_forall in Hall'. destruct (Hall' _ Hp) as [Hk _]. simpl in Hk.
    rewrite Hk in Hsame. subst k.
    apply (PyDictFacts.elem_of_get _ _ _ Hnd') in Hp.
    rewrite PyDictFacts.get_set_eq in Hp. injection Hp as <-. simpl in Hin'.
    revert Hin'. apply replace_reviewer_old_absent. congruence.
Qed.

Lemma reassigned_pull_request_is_listed_witness :
  exists shorts,
    get_user_reviews "v2" (reassign_reviewer [1] Scenario.reassign_pr2_v3 Scenario.s_open_b).2
    = (UserReviewsResponse "v2" shorts,
       (reassign_reviewer [1] Scenario.reassign_pr2_v3 Scenario.s_open_b).2)
    /\ PullRequestShort.mk "pr2" "y" "v1" OPEN ∈ shorts.
Proof.
  assert (Hreach : reachable Scenario.s_open_b) by (repeat constructor).
  destruct (reassigned_pull_request_is_listed [1] Scenario.reassign_pr2_v3
              Scenario.s_open_b
              (PullRequest.mk "pr2" "y" "v1" OPEN ["v2"; "v4"] (Some 7%Z) None) "v2"
              (reassign_reviewer [1] Scenario.reassign_pr2_v3 Scenario.s_open_b).2
              Hreach eq_refl) as [Hnew _].
  exact Hnew.
Defined.
